(** * Outpost service connections: API views, serializers and validators

    A shallow embedding of [authentik/outposts/api/outpost_service_connections.py]
    and the properties of its serializers and viewsets.

    - Python values (JSON documents, field values) are the inductive [PyValue];
      a dict is an association list in insertion order.
    - A raised exception is a value of [Exception]; a call that may raise
      returns a [Result].
    - A view is a state-passing function over the [World] (the repository of
      connection records and the certificate store).
    - Collaborators that the module only calls (the kubeconfig loader of the
      Kubernetes client library, the state property of the models, the
      subclass discovery, the filter backends and the paginator of the
      settings) are Section variables of the views; the health protocol and
      the discovery have a model of their own further down.
    - A string is a sequence of 8-bit characters; the string methods agree
      with Python's on ASCII text, and a statement about arbitrary class
      names is restricted to ASCII names. *)

From Stdlib Require Import Ascii String.
From stdpp Require Import base gmap list strings.

Local Open Scope Z_scope.
Set Warnings "-register-all".

(** ** Python values and exceptions *)

Inductive PyValue : Type :=
| PyNone
| PyBool (b : bool)
| PyInt (n : Z)
| PyStr (s : string)
| PyList (items : list PyValue)
| PyDict (items : list (string * PyValue)).

(** Truth value of an object, as tested by [not x] and [if x]. *)
Definition truthy (v : PyValue) : bool :=
  match v with
  | PyNone => false
  | PyBool b => b
  | PyInt n => negb (n =? 0)
  | PyStr s => negb (bool_decide (s = ""))
  | PyList items => negb (bool_decide (items = []))
  | PyDict items => negb (bool_decide (items = []))
  end.

(** [v == {}]: only a dict without items compares equal to the empty dict
    literal; a list, a string, a number or [None] never does. *)
Definition py_eq_empty_dict (v : PyValue) : bool :=
  match v with
  | PyDict [] => true
  | _ => false
  end.

Inductive Exception : Type :=
| ValidationError (detail : string)   (* rest_framework.serializers *)
| ValidationErrors (errors : list (string * string))
    (* the same class as raised by a serializer: the messages by field *)
| ConfigException                     (* kubernetes.config.config_exception *)
| AssertionError
| KeyError (key : string)
| Http404
| IntegrityError
| OtherException (cls : string).      (* any other class, by name *)

Inductive Result (A : Type) : Type :=
| Returns (a : A)
| Raises (e : Exception).
Arguments Returns {A} a.
Arguments Raises {A} e.

(** ** Python string methods used by the serializers *)

Module Str.

(** [c.lower()] on one character: the letters A..Z move to a..z, every
    other code is kept. This is Python's [str.lower] on ASCII text only;
    beyond ASCII Python follows Unicode. *)
Definition lower_char (c : ascii) : ascii :=
  let n := N_of_ascii c in
  if ((65 <=? n) && (n <=? 90))%N then ascii_of_N (n + 32) else c.

Fixpoint lower (s : string) : string :=
  match s with
  | EmptyString => EmptyString
  | String c s' => String (lower_char c) (lower s')
  end.

Fixpoint startswith (s p : string) : bool :=
  match p, s with
  | EmptyString, _ => true
  | String _ _, EmptyString => false
  | String a p', String b s' => bool_decide (a = b) && startswith s' p'
  end.

(** The scan of [s.replace(old, new)] for a non-empty [old]: left to right,
    at each position where [old] starts, [new] is emitted and the
    characters of that occurrence are skipped ([skip] counts the ones still
    to drop), so occurrences never overlap. *)
Fixpoint replace_scan (skip : nat) (old new s : string) : string :=
  match s with
  | EmptyString => EmptyString
  | String c s' =>
      match skip with
      | S k => replace_scan k old new s'
      | O =>
          if startswith s old
          then new +:+ replace_scan (Nat.pred (String.length old)) old new s'
          else String c (replace_scan O old new s')
      end
  end.

(** With an empty [old], Python inserts [new] before every character and
    at the end. *)
Fixpoint intersperse (new s : string) : string :=
  match s with
  | EmptyString => new
  | String c s' => new +:+ String c (intersperse new s')
  end.

(** [c in s] for a single character. *)
Fixpoint has_char (c : ascii) (s : string) : bool :=
  match s with
  | EmptyString => false
  | String b s' => bool_decide (b = c) || has_char c s'
  end.

Definition replace (s old new : string) : string :=
  match old with
  | EmptyString => intersperse new s
  | String _ _ => replace_scan O old new s
  end.

(** [s.isascii()]: every character is below 128. *)
Fixpoint isascii (s : string) : bool :=
  match s with
  | EmptyString => true
  | String c s' => (N_of_ascii c <? 128)%N && isascii s'
  end.

(** [old in s]: [old] starts at some position of [s]. *)
Fixpoint contains (s old : string) : bool :=
  startswith s old
  || match s with
     | EmptyString => false
     | String _ s' => contains s' old
     end.

End Str.

(** ** Data model

    The model classes live in [authentik.outposts.models]; this module
    imports the base class and its two variants. *)

Inductive ModelClass : Type :=
| OutpostServiceConnection
| DockerServiceConnection
| KubernetesServiceConnection.

Global Instance ModelClass_eq_dec : EqDecision ModelClass.
Proof. solve_decision. Defined.

(** [cls._meta.object_name]: the class name. *)
Definition object_name (c : ModelClass) : string :=
  match c with
  | OutpostServiceConnection => "OutpostServiceConnection"
  | DockerServiceConnection => "DockerServiceConnection"
  | KubernetesServiceConnection => "KubernetesServiceConnection"
  end.

(** Modelled from the spec: the fields of the Docker variant; the two TLS
    fields are nullable references into the certificate store. *)
Record DockerFields : Type := {
  url : string;
  tls_verification : option string;
  tls_authentication : option string
}.

(** Modelled from the spec: a stored connection is the shared fields and the
    fields of exactly one variant. *)
Inductive Variant : Type :=
| Docker (d : DockerFields)
| Kubernetes (kubeconfig : PyValue).

Record ServiceConnection : Type := {
  name : string;
  local : bool;
  variant : Variant
}.

(** The repository (records by primary key) and the certificate store. *)
Record World : Type := {
  connections : gmap string ServiceConnection;
  certificates : gset string
}.

Definition set_connections (w : World) (m : gmap string ServiceConnection) : World :=
  {| connections := m; certificates := certificates w |}.

(** A model instance as a queryset yields it: an object of a run-time class.
    An instance of the base class carries the same record but exposes only
    the shared fields. *)
Record Instance : Type := {
  instance_class : ModelClass;
  pk : string;
  row : ServiceConnection
}.

Definition class_of_variant (v : Variant) : ModelClass :=
  match v with
  | Docker _ => DockerServiceConnection
  | Kubernetes _ => KubernetesServiceConnection
  end.

(** ** Querysets *)

(** Modelled from the spec: [OutpostServiceConnection.objects.select_subclasses()],
    the repository's polymorphic retrieval; every record comes back as an
    instance of the class of its variant. *)
Definition select_subclasses (w : World) : gmap string Instance :=
  map_imap (λ k r, Some {| instance_class := class_of_variant (variant r);
                           pk := k; row := r |}) (connections w).

(** Modelled from the spec: [cls.objects.all()] of a model class. On a
    variant class it yields the records of that variant; on the base class it
    yields every record as a plain base instance. *)
Definition objects_all (cls : ModelClass) (w : World) : gmap string Instance :=
  map_imap (λ k r,
    if bool_decide (cls = OutpostServiceConnection ∨ cls = class_of_variant (variant r))
    then Some {| instance_class := cls; pk := k; row := r |}
    else None) (connections w).

(** [GenericAPIView.get_object]: the instance with that key, or not found. *)
Definition get_object (queryset : gmap string Instance) (key : string) : Result Instance :=
  match queryset !! key with
  | Some obj => Returns obj
  | None => Raises Http404
  end.

(** ** Results and views *)

Global Instance Result_ret : MRet Result := λ A a, Returns a.
Global Instance Result_bind : MBind Result := λ A B f r,
  match r with
  | Returns a => f a
  | Raises e => Raises e
  end.

Global Instance Result_fmap : FMap Result := λ A B f r,
  match r with
  | Returns a => Returns (f a)
  | Raises e => Raises e
  end.

(** A view reads and possibly changes the world, and returns the data of its
    response or raises. *)
Definition View (A : Type) : Type := World → Result A * World.

(** A view that only reads. *)
Definition reading {A} (f : World → Result A) : View A := λ w, (f w, w).

(** ** Serializers *)

Definition py_option_str (o : option string) : PyValue :=
  match o with
  | Some s => PyStr s
  | None => PyNone
  end.

(** [ServiceConnectionSerializer.get_object_type]. *)
Definition get_object_type (obj : Instance) : string :=
  Str.replace (Str.lower (object_name (instance_class obj))) "serviceconnection" "".

Definition ServiceConnectionSerializer_fields : list string :=
  ["pk"; "name"; "local"; "object_type"; "verbose_name"; "verbose_name_plural"].

Definition DockerServiceConnectionSerializer_fields : list string :=
  ServiceConnectionSerializer_fields ++ ["url"; "tls_verification"; "tls_authentication"].

Definition KubernetesServiceConnectionSerializer_fields : list string :=
  ServiceConnectionSerializer_fields ++ ["kubeconfig"].

(** The state of a serializer that a field validator reads: the attribute
    [_validated_data], which [is_valid] sets once the validation of all
    fields has run, and which is absent before. *)
Record Serializer : Type := {
  _validated_data : option (gmap string PyValue)
}.

(** The property [validated_data] of rest_framework's serializers: it
    asserts that [is_valid] has set the attribute. *)
Definition validated_data (self : Serializer) : Result (gmap string PyValue) :=
  match _validated_data self with
  | Some data => Returns data
  | None => Raises AssertionError
  end.

Definition empty_kubeconfig_message : string :=
  "You can only use an empty kubeconfig when connecting to a local cluster.".

Definition invalid_kubeconfig_message : string := "Invalid kubeconfig".

Section Serializers.

(** [_meta.verbose_name] and [_meta.verbose_name_plural] of the model
    classes, declared with the models. *)
Variable verbose_name_of : ModelClass → string.
Variable verbose_name_plural_of : ModelClass → string.

(** [kubernetes.config.kube_config.load_kube_config_from_dict]: fills the
    client configuration it is given, or raises. *)
Variable load_kube_config_from_dict : PyValue → Result unit.

(** The value of one serializer field on an instance; [None] when the
    instance has no such attribute. *)
Definition field_value (obj : Instance) (field : string) : option PyValue :=
  if bool_decide (field = "pk") then Some (PyStr (pk obj))
  else if bool_decide (field = "name") then Some (PyStr (name (row obj)))
  else if bool_decide (field = "local") then Some (PyBool (local (row obj)))
  else if bool_decide (field = "object_type") then Some (PyStr (get_object_type obj))
  else if bool_decide (field = "verbose_name")
    then Some (PyStr (verbose_name_of (instance_class obj)))
  else if bool_decide (field = "verbose_name_plural")
    then Some (PyStr (verbose_name_plural_of (instance_class obj)))
  else
    match instance_class obj, variant (row obj) with
    | DockerServiceConnection, Docker d =>
        if bool_decide (field = "url") then Some (PyStr (url d))
        else if bool_decide (field = "tls_verification")
          then Some (py_option_str (tls_verification d))
        else if bool_decide (field = "tls_authentication")
          then Some (py_option_str (tls_authentication d))
        else None
    | KubernetesServiceConnection, Kubernetes kubeconfig =>
        if bool_decide (field = "kubeconfig") then Some kubeconfig else None
    | _, _ => None
    end.

(** [ModelSerializer.to_representation] over the [Meta.fields] of a
    serializer class. *)
Fixpoint to_representation (fields : list string) (obj : Instance)
  : Result (list (string * PyValue)) :=
  match fields with
  | [] => Returns []
  | field :: rest =>
      match field_value obj field with
      | None => Raises (OtherException "AttributeError")
      | Some v => items ← to_representation rest obj; Returns ((field, v) :: items)
      end
  end.

Definition serializer_data (fields : list string) (obj : Instance) : Result PyValue :=
  PyDict <$> to_representation fields obj.

(** [KubernetesServiceConnectionSerializer.validate_kubeconfig]. The
    message is passed through gettext, the identity for the source
    language. *)
Definition validate_kubeconfig (self : Serializer) (kubeconfig : PyValue)
  : Result PyValue :=
  if py_eq_empty_dict kubeconfig then
    data ← validated_data self;
    match data !! "local" with
    | None => Raises (KeyError "local")
    | Some is_local =>
        if negb (truthy is_local)
        then Raises (ValidationError empty_kubeconfig_message)
        else Returns kubeconfig   (* Empty kubeconfig is valid *)
    end
  else
    match load_kube_config_from_dict kubeconfig with
    | Raises ConfigException => Raises (ValidationError invalid_kubeconfig_message)
    | Raises e => Raises e
    | Returns _ => Returns kubeconfig
    end.

End Serializers.

(** ** The class family seen by the type listing *)

(** A class of the running program, as far as [types] looks at it: its name,
    the names of its direct bases, its docstring, the verbose name of its
    [Meta] and the [component] of a fresh instance. *)
Record PyClass : Type := {
  cls_name : string;
  cls_bases : list string;
  cls_doc : option string;
  cls_verbose_name : string;
  cls_component : string
}.

(** One pass over the classes in definition order (a class is defined after
    its bases): a class joins the family when one of its bases is in it. *)
Fixpoint family_scan (family : list string) (classes : list PyClass) : list PyClass :=
  match classes with
  | [] => []
  | c :: rest =>
      if existsb (λ b, bool_decide (b ∈ family)) (cls_bases c)
      then c :: family_scan (cls_name c :: family) rest
      else family_scan family rest
  end.

(** Modelled from the spec: [authentik.lib.utils.reflection.all_subclasses],
    which is not part of this module. It finds the variants by membership in
    the class family of the root: every defined class that descends from it,
    directly or through other members. *)
Definition reflection_all_subclasses (classes : list PyClass) (root : string)
  : list PyClass :=
  family_scan [root] classes.

(** [d[key]] on a dict, [None] for a missing key or another kind of value. *)
Definition py_getitem (d : PyValue) (key : string) : option PyValue :=
  match d with
  | PyDict items => snd <$> find (λ kv, bool_decide (fst kv = key)) items
  | _ => None
  end.

(** Modelled from the spec: [TypeCreateSerializer(data, many=True).data] of
    [authentik.core.api.utils]; a descriptor carries the display name, the
    description and the component identifier of an entry. *)
Definition TypeCreateSerializer_data (data : list PyValue) : list PyValue :=
  (λ item, PyDict (omap (λ field, pair field <$> py_getitem item field)
                        ["name"; "description"; "component"])) <$> data.

(** The dict that the loop of [types] appends for one subclass. *)
Definition type_entry (subclass : PyClass) : PyValue :=
  PyDict [("name", PyStr (cls_verbose_name subclass));
          ("description", py_option_str (cls_doc subclass));
          ("component", PyStr (cls_component subclass))].

(** ** Health state *)

Inductive ProbeFailure : Type :=
| ConnectionRefused
| Timeout
| AuthFailure
| ProtocolError.

Inductive ProbeOutcome : Type :=
| Reachable (reported_version : string)
| Unreachable (failure : ProbeFailure).

(** Modelled from the spec: the dataclass of [authentik.outposts.models] that
    the [state] property returns, with the two fields of the health state. *)
Record HealthState : Type := {
  healthy : bool;
  version : string
}.

(** The fields that [ServiceConnectionStateSerializer] declares for the
    response of the state view. *)
Definition ServiceConnectionStateSerializer_fields : list string :=
  ["healthy"; "version"].

(** [dataclasses.asdict] of a state. *)
Definition asdict (s : HealthState) : PyValue :=
  PyDict [("healthy", PyBool (healthy s)); ("version", PyStr (version s))].

(** ** Submitted data of the two variant endpoints *)

Record DockerData : Type := {
  docker_name : string;
  docker_local : bool;
  docker_fields : DockerFields
}.

Record KubernetesData : Type := {
  kubernetes_name : string;
  kubernetes_local : bool;
  kubernetes_kubeconfig : PyValue
}.

(** The data of a partial update: every field may be left out. A TLS
    reference that is submitted may be null. *)
Record DockerPatch : Type := {
  patch_name : option string;
  patch_local : option bool;
  patch_url : option string;
  patch_tls_verification : option (option string);
  patch_tls_authentication : option (option string)
}.

Record KubernetesPatch : Type := {
  kpatch_name : option string;
  kpatch_local : option bool;
  kpatch_kubeconfig : option PyValue
}.

(** A submission of the whole field set, as the serializer sees it. *)
Definition docker_patch_of (data : DockerData) : DockerPatch :=
  {| patch_name := Some (docker_name data);
     patch_local := Some (docker_local data);
     patch_url := Some (url (docker_fields data));
     patch_tls_verification := Some (tls_verification (docker_fields data));
     patch_tls_authentication := Some (tls_authentication (docker_fields data)) |}.

Definition kubernetes_patch_of (data : KubernetesData) : KubernetesPatch :=
  {| kpatch_name := Some (kubernetes_name data);
     kpatch_local := Some (kubernetes_local data);
     kpatch_kubeconfig := Some (kubernetes_kubeconfig data) |}.

(** [ModelSerializer.update]: the submitted fields are set on the instance,
    the others keep their value. *)
Definition docker_apply (p : DockerPatch) (r : ServiceConnection) : ServiceConnection :=
  {| name := default (name r) (patch_name p);
     local := default (local r) (patch_local p);
     variant :=
       match variant r with
       | Docker d =>
           Docker {| url := default (url d) (patch_url p);
                     tls_verification :=
                       default (tls_verification d) (patch_tls_verification p);
                     tls_authentication :=
                       default (tls_authentication d) (patch_tls_authentication p) |}
       | other => other
       end |}.

Definition kubernetes_apply (p : KubernetesPatch) (r : ServiceConnection)
  : ServiceConnection :=
  {| name := default (name r) (kpatch_name p);
     local := default (local r) (kpatch_local p);
     variant :=
       match variant r with
       | Kubernetes kubeconfig => Kubernetes (default kubeconfig (kpatch_kubeconfig p))
       | other => other
       end |}.

(** [ModelSerializer.create]: the instance made of the submitted fields. *)
Definition docker_new (data : DockerData) : ServiceConnection :=
  {| name := docker_name data; local := docker_local data;
     variant := Docker (docker_fields data) |}.

Definition kubernetes_new (data : KubernetesData) : ServiceConnection :=
  {| name := kubernetes_name data; local := kubernetes_local data;
     variant := Kubernetes (kubernetes_kubeconfig data) |}.

(** The declarations of [ServiceConnectionViewSet] for the filter backends;
    the two variant viewsets declare none. *)
Definition search_fields : list string := ["name"].
Definition filterset_fields : list string := ["name"].

(** ** Viewsets *)

Inductive Request : Type :=
| ConnectionList
| ConnectionRetrieve (key : string)
| ConnectionDestroy (key : string)
| ConnectionTypes
| ConnectionState (key : string)
| DockerList
| DockerCreate (new_pk : string) (data : DockerData)
| DockerRetrieve (key : string)
| DockerUpdate (key : string) (data : DockerData)
| DockerPartialUpdate (key : string) (patch : DockerPatch)
| DockerDestroy (key : string)
| KubernetesList
| KubernetesCreate (new_pk : string) (data : KubernetesData)
| KubernetesRetrieve (key : string)
| KubernetesUpdate (key : string) (data : KubernetesData)
| KubernetesPartialUpdate (key : string) (patch : KubernetesPatch)
| KubernetesDestroy (key : string).

Section Views.

Variable verbose_name_of : ModelClass → string.
Variable verbose_name_plural_of : ModelClass → string.
Variable load_kube_config_from_dict : PyValue → Result unit.

(** The [state] property of a model instance, declared with the models. *)
Variable connection_state : Instance → HealthState.

(** [authentik.lib.utils.reflection.all_subclasses], by the name of the
    class it is asked about. *)
Variable all_subclasses : string → list PyClass.

(** [filter_queryset] and [paginate_queryset] of a list request: which
    instances of the queryset the page holds, by the filter backends and the
    paginator of the settings, the query parameters of the request and the
    search and filter fields that the viewset declares. *)
Variable page_of : list string → list string → list Instance → list Instance.

(** [get_paginated_response]: the envelope of a page. *)
Variable paginated_response : list PyValue → PyValue.

Local Abbreviation serializer_data :=
  (serializer_data verbose_name_of verbose_name_plural_of).

(** *** Mixins of rest_framework

    Retrieve, list, destroy, create, update and partial update of the
    framework's viewsets over the repository. A write validates the
    submitted fields with the serializer and persists only a valid
    submission; the key of a new record is generated by the caller of
    [create]. *)

Definition retrieve (queryset : World → gmap string Instance) (fields : list string)
    (key : string) : View PyValue :=
  reading (λ w, obj ← get_object (queryset w) key; serializer_data fields obj).

Definition list_ (queryset : World → gmap string Instance)
    (search filterset : list string) (fields : list string) : View PyValue :=
  reading (λ w,
    paginated_response
      <$> mapM (serializer_data fields)
               (page_of search filterset (snd <$> map_to_list (queryset w)))).

Definition destroy (queryset : World → gmap string Instance) (key : string)
  : View PyValue := λ w,
  match get_object (queryset w) key with
  | Raises e => (Raises e, w)
  | Returns obj => (Returns PyNone, set_connections w (delete (pk obj) (connections w)))
  end.

(** [validated] is the run of the serializer: [is_valid], then the record
    that [save] writes. *)
Definition create (cls : ModelClass) (fields : list string) (new_pk : string)
    (validated : World → Result ServiceConnection) : View PyValue := λ w,
  match validated w with
  | Raises e => (Raises e, w)
  | Returns r =>
      match connections w !! new_pk with
      | Some _ => (Raises IntegrityError, w)
      | None =>
          (serializer_data fields {| instance_class := cls; pk := new_pk; row := r |},
           set_connections w (<[new_pk := r]> (connections w)))
      end
  end.

(** [update] and [partial_update] differ in the fields that the serializer
    is given. *)
Definition update (cls : ModelClass) (fields : list string) (key : string)
    (validated : World → Instance → Result ServiceConnection) : View PyValue := λ w,
  match get_object (objects_all cls w) key with
  | Raises e => (Raises e, w)
  | Returns obj =>
      match validated w obj with
      | Raises e => (Raises e, w)
      | Returns r =>
          (serializer_data fields {| instance_class := cls; pk := pk obj; row := r |},
           set_connections w (<[pk obj := r]> (connections w)))
      end
  end.

(** *** Validation by the serializers

    [Serializer.run_validation] validates the submitted fields in their
    declared order. The validation errors of the fields are collected and
    raised together at the end; any other exception of a validator leaves
    at once. A field that is not submitted is not validated. *)

(** The name of a connection is unique in the whole catalogue; on update
    the record itself does not count. *)
Definition name_taken (w : World) (self_pk : option string) (n : string) : bool :=
  bool_decide (map_Exists (λ k r, Some k ≠ self_pk ∧ name r = n) (connections w)).

Definition certificate_known (w : World) (ref : option string) : bool :=
  match ref with
  | Some c => bool_decide (c ∈ certificates w)
  | None => true
  end.

Definition name_errors (w : World) (self_pk : option string) (submitted : option string)
  : list (string * string) :=
  match submitted with
  | Some n =>
      if name_taken w self_pk n
      then [("name", "service connection with this name already exists.")]
      else []
  | None => []
  end.

Definition url_errors (submitted : option string) : list (string * string) :=
  match submitted with
  | Some u => if bool_decide (u = "") then [("url", "This field may not be blank.")] else []
  | None => []
  end.

Definition certificate_errors (w : World) (field : string)
    (submitted : option (option string)) : list (string * string) :=
  match submitted with
  | Some ref =>
      if certificate_known w ref then []
      else [(field, "Invalid pk - object does not exist.")]
  | None => []
  end.

(** The end of [run_validation]. *)
Definition raise_errors {A} (errors : list (string * string)) (validated : A) : Result A :=
  match errors with
  | [] => Returns validated
  | _ :: _ => Raises (ValidationErrors errors)
  end.

(** Validation by [DockerServiceConnectionSerializer], which declares no
    validator of its own: the name is free, the endpoint is given and the
    referenced certificates exist. *)
Definition DockerServiceConnectionSerializer_validate (w : World)
    (self_pk : option string) (p : DockerPatch) : Result DockerPatch :=
  raise_errors
    (name_errors w self_pk (patch_name p)
     ++ url_errors (patch_url p)
     ++ certificate_errors w "tls_verification" (patch_tls_verification p)
     ++ certificate_errors w "tls_authentication" (patch_tls_authentication p))
    p.

(** Validation by [KubernetesServiceConnectionSerializer]: the name is
    free, and [validate_kubeconfig] runs on a submitted kubeconfig. It runs
    inside [is_valid], on a serializer whose [_validated_data] is not set
    yet; what it returns is the validated kubeconfig. *)
Definition KubernetesServiceConnectionSerializer_validate (w : World)
    (self_pk : option string) (p : KubernetesPatch) : Result KubernetesPatch :=
  let self := {| _validated_data := None |} in
  let errors := name_errors w self_pk (kpatch_name p) in
  match kpatch_kubeconfig p with
  | None => raise_errors errors p
  | Some kubeconfig =>
      match validate_kubeconfig load_kube_config_from_dict self kubeconfig with
      | Returns validated =>
          raise_errors errors
            {| kpatch_name := kpatch_name p; kpatch_local := kpatch_local p;
               kpatch_kubeconfig := Some validated |}
      | Raises (ValidationError detail) =>
          Raises (ValidationErrors (errors ++ [("kubeconfig", detail)]))
      | Raises e => Raises e
      end
  end.

(** *** ServiceConnectionViewSet *)

Definition ServiceConnectionViewSet_queryset : World → gmap string Instance :=
  select_subclasses.

(** [ServiceConnectionViewSet.types]: the loop appends one entry per
    subclass of the model of the queryset. The action is declared without
    filter backends and without pagination. *)
Definition types : View PyValue :=
  reading (λ w,
    let data :=
      fold_left (λ data subclass, data ++ [type_entry subclass])
                (all_subclasses (object_name OutpostServiceConnection)) [] in
    Returns (PyList (TypeCreateSerializer_data data))).

(** [ServiceConnectionViewSet.state]. *)
Definition state (key : string) : View PyValue :=
  reading (λ w,
    connection ← get_object (ServiceConnectionViewSet_queryset w) key;
    Returns (asdict (connection_state connection))).

(** *** Dispatch of a request to its view *)

Definition handle (req : Request) : View PyValue :=
  match req with
  | ConnectionList =>
      list_ ServiceConnectionViewSet_queryset search_fields filterset_fields
            ServiceConnectionSerializer_fields
  | ConnectionRetrieve key =>
      retrieve ServiceConnectionViewSet_queryset ServiceConnectionSerializer_fields key
  | ConnectionDestroy key => destroy ServiceConnectionViewSet_queryset key
  | ConnectionTypes => types
  | ConnectionState key => state key
  | DockerList =>
      list_ (objects_all DockerServiceConnection) [] []
            DockerServiceConnectionSerializer_fields
  | DockerCreate new_pk data =>
      create DockerServiceConnection DockerServiceConnectionSerializer_fields new_pk
        (λ w, p ← DockerServiceConnectionSerializer_validate w None (docker_patch_of data);
              Returns (docker_apply p (docker_new data)))
  | DockerRetrieve key =>
      retrieve (objects_all DockerServiceConnection)
               DockerServiceConnectionSerializer_fields key
  | DockerUpdate key data =>
      update DockerServiceConnection DockerServiceConnectionSerializer_fields key
        (λ w obj, p ← DockerServiceConnectionSerializer_validate w (Some (pk obj))
                        (docker_patch_of data);
                  Returns (docker_apply p (row obj)))
  | DockerPartialUpdate key patch =>
      update DockerServiceConnection DockerServiceConnectionSerializer_fields key
        (λ w obj, p ← DockerServiceConnectionSerializer_validate w (Some (pk obj)) patch;
                  Returns (docker_apply p (row obj)))
  | DockerDestroy key => destroy (objects_all DockerServiceConnection) key
  | KubernetesList =>
      list_ (objects_all KubernetesServiceConnection) [] []
            KubernetesServiceConnectionSerializer_fields
  | KubernetesCreate new_pk data =>
      create KubernetesServiceConnection KubernetesServiceConnectionSerializer_fields
        new_pk
        (λ w, p ← KubernetesServiceConnectionSerializer_validate w None
                    (kubernetes_patch_of data);
              Returns (kubernetes_apply p (kubernetes_new data)))
  | KubernetesRetrieve key =>
      retrieve (objects_all KubernetesServiceConnection)
               KubernetesServiceConnectionSerializer_fields key
  | KubernetesUpdate key data =>
      update KubernetesServiceConnection KubernetesServiceConnectionSerializer_fields key
        (λ w obj, p ← KubernetesServiceConnectionSerializer_validate w (Some (pk obj))
                        (kubernetes_patch_of data);
                  Returns (kubernetes_apply p (row obj)))
  | KubernetesPartialUpdate key patch =>
      update KubernetesServiceConnection KubernetesServiceConnectionSerializer_fields key
        (λ w obj, p ← KubernetesServiceConnectionSerializer_validate w (Some (pk obj))
                        patch;
                  Returns (kubernetes_apply p (row obj)))
  | KubernetesDestroy key => destroy (objects_all KubernetesServiceConnection) key
  end.

(** The world after a sequence of requests, whatever their responses. *)
Definition run (reqs : list Request) (w : World) : World :=
  fold_left (λ w req, snd (handle req w)) reqs w.

End Views.

(** Modelled from the spec: the [state] property of a connection
    ([authentik.outposts.models]), the health protocol. A probe of the
    backend either reaches it and learns its version or fails; every failure
    becomes an unhealthy state without a version. *)
Definition probe_health (probe_backend : ServiceConnection → ProbeOutcome)
    (obj : Instance) : HealthState :=
  match probe_backend (row obj) with
  | Reachable v => {| healthy := true; version := v |}
  | Unreachable _ => {| healthy := false; version := "" |}
  end.

(** The key and the kubeconfig of a request that submits one. *)
Definition submitted_kubeconfig (req : Request) : option (string * PyValue) :=
  match req with
  | KubernetesCreate key data | KubernetesUpdate key data =>
      Some (key, kubernetes_kubeconfig data)
  | KubernetesPartialUpdate key patch => pair key <$> kpatch_kubeconfig patch
  | _ => None
  end.

(** The retrieve request of the viewset and key that a write goes to. *)
Definition retrieve_after (req : Request) : option Request :=
  match req with
  | DockerCreate key _ | DockerUpdate key _ | DockerPartialUpdate key _ =>
      Some (DockerRetrieve key)
  | KubernetesCreate key _ | KubernetesUpdate key _ | KubernetesPartialUpdate key _ =>
      Some (KubernetesRetrieve key)
  | _ => None
  end.

(** A class of the program descends from the root: the root is one of its
    bases, or a class of the program that descends from the root is. *)
Inductive descends (classes : list PyClass) (root : string) : PyClass → Prop :=
| descends_direct (c : PyClass) :
    c ∈ classes → root ∈ cls_bases c → descends classes root c
| descends_step (c parent : PyClass) :
    c ∈ classes → descends classes root parent → cls_name parent ∈ cls_bases c →
    descends classes root c.

(** ** The invariant of the repository *)

(** A Kubernetes record that is not local has a kubeconfig other than the
    empty dict. *)
Definition record_ok (r : ServiceConnection) : bool :=
  match variant r with
  | Docker _ => true
  | Kubernetes kubeconfig => local r || negb (py_eq_empty_dict kubeconfig)
  end.

Definition kubeconfig_invariant (w : World) : Prop :=
  map_Forall (λ _ r, record_ok r = true) (connections w).

(** The [object_type] that belongs to a variant. *)
Definition variant_kind (v : Variant) : string :=
  match v with
  | Docker _ => "docker"
  | Kubernetes _ => "kubernetes"
  end.

(** ** Sample collaborators and inputs *)

Module Sample.

Definition verbose_name (c : ModelClass) : string :=
  match c with
  | OutpostServiceConnection => "Outpost Service-Connection"
  | DockerServiceConnection => "Docker Service-Connection"
  | KubernetesServiceConnection => "Kubernetes Service-Connection"
  end.

Definition verbose_name_plural (c : ModelClass) : string :=
  verbose_name c +:+ "s".

(** A loader that accepts a mapping with a current context, raises its
    [ConfigException] on any other mapping or sequence or string, and
    fails with a [TypeError] on a number, which it cannot search. *)
Definition load_kube_config (config : PyValue) : Result unit :=
  match config with
  | PyDict _ =>
      match py_getitem config "current-context" with
      | Some _ => Returns tt
      | None => Raises ConfigException
      end
  | PyInt _ | PyBool _ => Raises (OtherException "TypeError")
  | _ => Raises ConfigException
  end.

Definition kubeconfig : PyValue :=
  PyDict [("current-context", PyStr "default");
          ("contexts", PyList []); ("clusters", PyList []); ("users", PyList [])].

(** A backend that answers for Docker connections and times out for the
    others. *)
Definition probe_backend (r : ServiceConnection) : ProbeOutcome :=
  match variant r with
  | Docker _ => Reachable "20.10.7"
  | Kubernetes _ => Unreachable Timeout
  end.

Definition base_class : PyClass :=
  {| cls_name := "OutpostServiceConnection"; cls_bases := ["Model"];
     cls_doc := Some "Connection details for an Outpost Controller";
     cls_verbose_name := "Outpost Service-Connection"; cls_component := "" |}.

Definition docker_class : PyClass :=
  {| cls_name := "DockerServiceConnection"; cls_bases := ["OutpostServiceConnection"];
     cls_doc := Some "Service Connection to a Docker endpoint";
     cls_verbose_name := "Docker Service-Connection";
     cls_component := "ak-service-connection-docker-form" |}.

Definition kubernetes_class : PyClass :=
  {| cls_name := "KubernetesServiceConnection"; cls_bases := ["OutpostServiceConnection"];
     cls_doc := Some "Service Connection to a Kubernetes cluster";
     cls_verbose_name := "Kubernetes Service-Connection";
     cls_component := "ak-service-connection-kubernetes-form" |}.

Definition other_class : PyClass :=
  {| cls_name := "Outpost"; cls_bases := ["Model"]; cls_doc := None;
     cls_verbose_name := "Outpost"; cls_component := "" |}.

Definition nomad_class : PyClass :=
  {| cls_name := "NomadServiceConnection"; cls_bases := ["OutpostServiceConnection"];
     cls_doc := Some "Service Connection to a Nomad cluster";
     cls_verbose_name := "Nomad Service-Connection";
     cls_component := "ak-service-connection-nomad-form" |}.

Definition classes : list PyClass :=
  [base_class; other_class; docker_class; kubernetes_class].

Definition docker_data : DockerData :=
  {| docker_name := "engine"; docker_local := false;
     docker_fields := {| url := "tcp://engine:2376";
                         tls_verification := Some "ca";
                         tls_authentication := None |} |}.

Definition local_cluster : KubernetesData :=
  {| kubernetes_name := "in-cluster"; kubernetes_local := true;
     kubernetes_kubeconfig := PyDict [] |}.

Definition remote_without_config : KubernetesData :=
  {| kubernetes_name := "remote"; kubernetes_local := false;
     kubernetes_kubeconfig := PyDict [] |}.

Definition remote_cluster : KubernetesData :=
  {| kubernetes_name := "remote"; kubernetes_local := false;
     kubernetes_kubeconfig := kubeconfig |}.

Definition empty_world : World :=
  {| connections := ∅; certificates := {[ "ca" ]} |}.

(** A list request without query parameters under settings without a
    paginator: the page is the whole queryset, the response the list. *)
Definition page_of (search filterset : list string) (instances : list Instance)
  : list Instance := instances.

Definition paginated_response (entries : list PyValue) : PyValue := PyList entries.

Definition handle : Request → View PyValue :=
  handle verbose_name verbose_name_plural load_kube_config
         (probe_health probe_backend) (reflection_all_subclasses classes)
         page_of paginated_response.

Definition run : list Request → World → World :=
  run verbose_name verbose_name_plural load_kube_config
      (probe_health probe_backend) (reflection_all_subclasses classes)
      page_of paginated_response.

(** The repository after a Docker engine and a remote cluster were created;
    the requests with an empty kubeconfig fail on the way and leave no
    record. *)
Definition requests : list Request :=
  [DockerCreate "d" docker_data;
   KubernetesCreate "a" local_cluster;
   KubernetesCreate "b" remote_cluster;
   KubernetesUpdate "a" remote_without_config;
   KubernetesCreate "c" remote_without_config].

Definition world : World := run requests empty_world.

Definition docker_record : ServiceConnection :=
  {| name := "engine"; local := false; variant := Docker (docker_fields docker_data) |}.

Definition remote_record : ServiceConnection :=
  {| name := "remote"; local := false; variant := Kubernetes kubeconfig |}.

(** A repository that holds a local cluster without a kubeconfig, and the
    partial update that submits nothing but a false [local]. *)
Definition local_record : ServiceConnection :=
  {| name := "in-cluster"; local := true; variant := Kubernetes (PyDict []) |}.

Definition local_world : World :=
  {| connections := {[ "a" := local_record ]}; certificates := {[ "ca" ]} |}.

Definition only_local_false : KubernetesPatch :=
  {| kpatch_name := None; kpatch_local := Some false; kpatch_kubeconfig := None |}.

End Sample.

(** * Properties *)

(** ** String methods *)

Lemma lower_app (s t : string) :
  Str.lower (s +:+ t) = Str.lower s +:+ Str.lower t.
Proof. induction s as [|c s IH]; simpl; [done | by rewrite IH]. Qed.

Lemma replace_scan_skip_all (old new s : string) :
  Str.replace_scan (String.length s) old new s = "".
Proof. induction s as [|c s IH]; simpl; done. Qed.

Lemma startswith_refl (s : string) : Str.startswith s s = true.
Proof.
  induction s as [|c s IH]; simpl; [done|].
  rewrite bool_decide_eq_true_2; done.
Qed.

(** A stem that does not contain the first character of [old], followed by
    one occurrence of [old]: the scan keeps the stem and puts [new] for the
    occurrence. *)
Lemma replace_scan_stem (a : ascii) (old' new stem : string) :
  Str.has_char a stem = false →
  Str.replace_scan O (String a old') new (stem +:+ String a old') = stem +:+ new.
Proof.
  induction stem as [|c stem IH]; intros Hc.
  - change ("" +:+ String a old') with (String a old').
    cbn [Str.replace_scan]. rewrite startswith_refl.
    cbn [String.length Nat.pred]. rewrite replace_scan_skip_all.
    change ("" +:+ new) with new.
    clear. induction new as [|b new IH]; [done|].
    change (String b new +:+ "") with (String b (new +:+ "")). by rewrite IH.
  - simpl in Hc. apply orb_false_iff in Hc as [Hca Hstem].
    apply bool_decide_eq_false in Hca.
    change (String c stem +:+ String a old') with (String c (stem +:+ String a old')).
    cbn [Str.replace_scan Str.startswith].
    rewrite bool_decide_eq_false_2 by congruence.
    cbn [andb]. rewrite IH by done. done.
Qed.

(** ** The object type of a serialized connection *)

(** C10: the [object_type] field of the connection serializer is the class
    name of the instance in lower case with the substring
    "serviceconnection" deleted. An instance of [DockerServiceConnection]
    reports "docker", one of [KubernetesServiceConnection] reports
    "kubernetes", two instances of the same class report the same type, and
    a class name made of a stem without the letter s followed by
    "ServiceConnection" reports its stem in lower case. *)
Theorem object_type_from_class_name
    (verbose_name_of verbose_name_plural_of : ModelClass → string) :
  (∀ obj : Instance,
     field_value verbose_name_of verbose_name_plural_of obj "object_type"
     = Some (PyStr (Str.replace (Str.lower (object_name (instance_class obj)))
                                "serviceconnection" ""))) ∧
  (∀ key r,
     get_object_type {| instance_class := DockerServiceConnection; pk := key; row := r |}
     = "docker") ∧
  (∀ key r,
     get_object_type {| instance_class := KubernetesServiceConnection; pk := key; row := r |}
     = "kubernetes") ∧
  (∀ cls key1 r1 key2 r2,
     get_object_type {| instance_class := cls; pk := key1; row := r1 |}
     = get_object_type {| instance_class := cls; pk := key2; row := r2 |}) ∧
  (∀ stem : string,
     Str.has_char "s" (Str.lower stem) = false →
     Str.replace (Str.lower (stem +:+ "ServiceConnection")) "serviceconnection" ""
     = Str.lower stem).
Proof.
  repeat split.
  - intros stem Hs. rewrite lower_app.
    change (Str.lower "ServiceConnection") with "serviceconnection".
    unfold Str.replace.
    rewrite (replace_scan_stem "s" "erviceconnection" "" (Str.lower stem) Hs).
    generalize (Str.lower stem). clear.
    intros t. induction t as [|c t IH]; [done|].
    change (String c t +:+ "") with (String c (t +:+ "")). by rewrite IH.
Qed.

Lemma object_type_from_class_name_witness :
  Str.has_char "s" (Str.lower "Docker") = false ∧
  Str.replace (Str.lower ("Docker" +:+ "ServiceConnection")) "serviceconnection" ""
  = Str.lower "Docker".
Proof.
  split; [reflexivity|].
  apply (object_type_from_class_name Sample.verbose_name Sample.verbose_name_plural).
  reflexivity.
Defined.

(** ** Lookups in the querysets *)

Lemma select_subclasses_lookup (w : World) (key : string) :
  select_subclasses w !! key
  = (λ r, {| instance_class := class_of_variant (variant r); pk := key; row := r |})
      <$> connections w !! key.
Proof.
  unfold select_subclasses. rewrite map_lookup_imap.
  by destruct (connections w !! key).
Qed.

Lemma objects_all_lookup (cls : ModelClass) (w : World) (key : string) :
  objects_all cls w !! key
  = r ← connections w !! key;
    if bool_decide (cls = OutpostServiceConnection ∨ cls = class_of_variant (variant r))
    then Some {| instance_class := cls; pk := key; row := r |}
    else None.
Proof. unfold objects_all. by rewrite map_lookup_imap. Qed.

Lemma get_object_select_subclasses (w : World) (key : string) :
  get_object (select_subclasses w) key
  = match connections w !! key with
    | Some r => Returns {| instance_class := class_of_variant (variant r);
                           pk := key; row := r |}
    | None => Raises Http404
    end.
Proof.
  unfold get_object. rewrite select_subclasses_lookup.
  by destruct (connections w !! key).
Qed.

(** The plain manager of the base class, which the viewset does not use,
    yields base instances, whose object type names no variant. *)
Lemma objects_all_base_downcasts (w : World) (key : string) (r : ServiceConnection) :
  connections w !! key = Some r →
  ∃ obj, get_object (objects_all OutpostServiceConnection w) key = Returns obj
         ∧ instance_class obj = OutpostServiceConnection
         ∧ get_object_type obj = "outpost".
Proof.
  intros Hr. unfold get_object. rewrite objects_all_lookup, Hr. cbn.
  eexists. split; [done|]. by split.
Qed.

Lemma get_object_objects_all (cls : ModelClass) (w : World) (key : string) :
  get_object (objects_all cls w) key
  = match connections w !! key with
    | Some r =>
        if bool_decide (cls = OutpostServiceConnection ∨ cls = class_of_variant (variant r))
        then Returns {| instance_class := cls; pk := key; row := r |}
        else Raises Http404
    | None => Raises Http404
    end.
Proof.
  unfold get_object. rewrite objects_all_lookup.
  destruct (connections w !! key) as [r|]; [|done].
  cbn. by case_bool_decide.
Qed.

(** ** What the serializers return and accept *)

Lemma connection_serializer_data (vn vnp : ModelClass → string) (obj : Instance) :
  serializer_data vn vnp ServiceConnectionSerializer_fields obj
  = Returns (PyDict [("pk", PyStr (pk obj)); ("name", PyStr (name (row obj)));
                     ("local", PyBool (local (row obj)));
                     ("object_type", PyStr (get_object_type obj));
                     ("verbose_name", PyStr (vn (instance_class obj)));
                     ("verbose_name_plural", PyStr (vnp (instance_class obj)))]).
Proof. reflexivity. Qed.

(** The Docker serializer on a Docker instance. *)
Lemma docker_serializer_data (vn vnp : ModelClass → string) (key : string)
    (r : ServiceConnection) (d : DockerFields) :
  variant r = Docker d →
  serializer_data vn vnp DockerServiceConnectionSerializer_fields
    {| instance_class := DockerServiceConnection; pk := key; row := r |}
  = Returns (PyDict [("pk", PyStr key); ("name", PyStr (name r));
                     ("local", PyBool (local r));
                     ("object_type", PyStr "docker");
                     ("verbose_name", PyStr (vn DockerServiceConnection));
                     ("verbose_name_plural", PyStr (vnp DockerServiceConnection));
                     ("url", PyStr (url d));
                     ("tls_verification", py_option_str (tls_verification d));
                     ("tls_authentication", py_option_str (tls_authentication d))]).
Proof. destruct r as [n l v]. cbn. by intros ->. Qed.

(** The Kubernetes serializer on a Kubernetes instance. *)
Lemma kubernetes_serializer_data (vn vnp : ModelClass → string) (key : string)
    (r : ServiceConnection) (kubeconfig : PyValue) :
  variant r = Kubernetes kubeconfig →
  serializer_data vn vnp KubernetesServiceConnectionSerializer_fields
    {| instance_class := KubernetesServiceConnection; pk := key; row := r |}
  = Returns (PyDict [("pk", PyStr key); ("name", PyStr (name r));
                     ("local", PyBool (local r));
                     ("object_type", PyStr "kubernetes");
                     ("verbose_name", PyStr (vn KubernetesServiceConnection));
                     ("verbose_name_plural", PyStr (vnp KubernetesServiceConnection));
                     ("kubeconfig", kubeconfig)]).
Proof. destruct r as [n l v]. cbn. by intros ->. Qed.

Lemma raise_errors_Returns {A} (errors : list (string * string)) (validated r : A) :
  raise_errors errors validated = Returns r → errors = [] ∧ r = validated.
Proof. destruct errors; [|done]. by intros [= <-]. Qed.

(** The Docker serializer returns the submitted fields or raises. *)
Lemma docker_validate_shape (w : World) (self_pk : option string) (p validated : DockerPatch) :
  DockerServiceConnectionSerializer_validate w self_pk p = Returns validated →
  validated = p.
Proof.
  unfold DockerServiceConnectionSerializer_validate.
  by intros [_ ->]%raise_errors_Returns.
Qed.

(** A Docker submission that validates. *)
Lemma docker_validate_ok (w : World) (self_pk : option string) (data : DockerData) :
  name_taken w self_pk (docker_name data) = false →
  url (docker_fields data) ≠ "" →
  certificate_known w (tls_verification (docker_fields data)) = true →
  certificate_known w (tls_authentication (docker_fields data)) = true →
  DockerServiceConnectionSerializer_validate w self_pk (docker_patch_of data)
  = Returns (docker_patch_of data).
Proof.
  intros Hname Hurl Hv Ha. unfold DockerServiceConnectionSerializer_validate.
  cbn [docker_patch_of patch_name patch_url patch_tls_verification
       patch_tls_authentication name_errors url_errors certificate_errors].
  rewrite Hname, Hv, Ha. by rewrite bool_decide_eq_false_2.
Qed.

(** Inside [is_valid] the validator returns only a document other than the
    empty dict that the loader accepted, and returns it as it is. *)
Lemma validate_kubeconfig_in_is_valid (load : PyValue → Result unit)
    (kubeconfig validated : PyValue) :
  validate_kubeconfig load {| _validated_data := None |} kubeconfig = Returns validated →
  validated = kubeconfig ∧ kubeconfig ≠ PyDict [] ∧ load kubeconfig = Returns tt.
Proof.
  unfold validate_kubeconfig.
  destruct (py_eq_empty_dict kubeconfig) eqn:Hempty; [done|].
  destruct (load kubeconfig) as [[]|[]]; try done.
  intros [= <-]. split; [done|]. split; [|done]. by intros ->.
Qed.

(** The Kubernetes serializer returns the submitted fields or raises, and a
    kubeconfig among them was accepted by the loader. *)
Lemma kubernetes_validate_shape (load : PyValue → Result unit) (w : World)
    (self_pk : option string) (p validated : KubernetesPatch) :
  KubernetesServiceConnectionSerializer_validate load w self_pk p = Returns validated →
  validated = p
  ∧ ∀ kubeconfig, kpatch_kubeconfig p = Some kubeconfig →
                  kubeconfig ≠ PyDict [] ∧ load kubeconfig = Returns tt.
Proof.
  unfold KubernetesServiceConnectionSerializer_validate.
  destruct p as [n l [kubeconfig|]]; cbn [kpatch_kubeconfig kpatch_name kpatch_local].
  - destruct (validate_kubeconfig _ _ _) as [validated'|e] eqn:Hv; [|by destruct e].
    apply validate_kubeconfig_in_is_valid in Hv as (-> & Hne & Hloaded).
    intros [_ ->]%raise_errors_Returns. split; [done|]. by intros ? [= <-].
  - intros [_ ->]%raise_errors_Returns. by split.
Qed.

(** An empty kubeconfig among the submitted fields stops the validation
    with the assertion of [validated_data], whatever else is submitted. *)
Lemma kubernetes_validate_empty (load : PyValue → Result unit) (w : World)
    (self_pk : option string) (p : KubernetesPatch) :
  kpatch_kubeconfig p = Some (PyDict []) →
  KubernetesServiceConnectionSerializer_validate load w self_pk p = Raises AssertionError.
Proof.
  intros Hempty. unfold KubernetesServiceConnectionSerializer_validate.
  by rewrite Hempty.
Qed.

Lemma docker_apply_full (data : DockerData) (r : ServiceConnection) (d : DockerFields) :
  variant r = Docker d → docker_apply (docker_patch_of data) r = docker_new data.
Proof. intros Hr. unfold docker_apply, docker_new. rewrite Hr. by destruct data as [? ? []]. Qed.

Lemma kubernetes_apply_full (data : KubernetesData) (r : ServiceConnection)
    (kubeconfig : PyValue) :
  variant r = Kubernetes kubeconfig →
  kubernetes_apply (kubernetes_patch_of data) r = kubernetes_new data.
Proof. intros Hr. unfold kubernetes_apply, kubernetes_new. by rewrite Hr. Qed.

Lemma docker_apply_class (p : DockerPatch) (r : ServiceConnection) :
  class_of_variant (variant (docker_apply p r)) = class_of_variant (variant r).
Proof. unfold docker_apply. cbn. by destruct (variant r). Qed.

Lemma kubernetes_apply_class (p : KubernetesPatch) (r : ServiceConnection) :
  class_of_variant (variant (kubernetes_apply p r)) = class_of_variant (variant r).
Proof. unfold kubernetes_apply. cbn. by destruct (variant r). Qed.

Lemma class_of_variant_docker (r : ServiceConnection) :
  class_of_variant (variant r) = DockerServiceConnection → ∃ d, variant r = Docker d.
Proof. destruct (variant r); [eauto|done]. Qed.

Lemma class_of_variant_kubernetes (r : ServiceConnection) :
  class_of_variant (variant r) = KubernetesServiceConnection →
  ∃ kubeconfig, variant r = Kubernetes kubeconfig.
Proof. destruct (variant r); [done|eauto]. Qed.

(** ** Validation of a kubeconfig *)

Section KubeconfigValidation.

Variable verbose_name_of : ModelClass → string.
Variable verbose_name_plural_of : ModelClass → string.
Variable load_kube_config_from_dict : PyValue → Result unit.
Variable connection_state : Instance → HealthState.
Variable all_subclasses : string → list PyClass.
Variable page_of : list string → list string → list Instance → list Instance.
Variable paginated_response : list PyValue → PyValue.

Local Abbreviation api :=
  (handle verbose_name_of verbose_name_plural_of
          load_kube_config_from_dict connection_state all_subclasses
          page_of paginated_response).

(** C1: the code does not accept an empty kubeconfig for a local
    connection. The validator reads [self.validated_data], and it runs
    inside [is_valid], before that attribute is set: for the empty dict it
    raises the assertion error of the property, with a true [local] as well
    as with a false one. Creating a connection with an empty kubeconfig, and
    updating a Kubernetes record to one, ends in that error instead of a
    success or a validation error; nothing is persisted. *)
Theorem empty_kubeconfig_raises_assertion_error (w : World) (key : string)
    (data : KubernetesData) :
  kubernetes_kubeconfig data = PyDict [] →
  validate_kubeconfig load_kube_config_from_dict {| _validated_data := None |}
    (kubernetes_kubeconfig data) = Raises AssertionError
  ∧ api (KubernetesCreate key data) w = (Raises AssertionError, w)
  ∧ (∀ r kubeconfig,
       connections w !! key = Some r → variant r = Kubernetes kubeconfig →
       api (KubernetesUpdate key data) w = (Raises AssertionError, w)
       ∧ api (KubernetesPartialUpdate key
                {| kpatch_name := None; kpatch_local := None;
                   kpatch_kubeconfig := Some (kubernetes_kubeconfig data) |}) w
         = (Raises AssertionError, w)).
Proof.
  intros Hempty. rewrite Hempty. split; [reflexivity|]. split.
  - cbn [handle]. unfold create.
    rewrite kubernetes_validate_empty; [done|]. cbn. by rewrite Hempty.
  - intros r kubeconfig Hr Hvariant. cbn [handle]. unfold update.
    rewrite get_object_objects_all, Hr, Hvariant.
    rewrite bool_decide_eq_true_2 by (by right).
    rewrite !kubernetes_validate_empty; [done|done|]. cbn. by rewrite Hempty.
Qed.

(** C2, as amended: for a kubeconfig other than the empty dict, a
    [ConfigException] of the loader is caught and raised again as the
    validation error "Invalid kubeconfig", so the validator never raises
    [ConfigException]; a document the loader accepts is returned unchanged;
    an exception of any other class raised by the loader is not caught and
    leaves the validator as it is. *)
Theorem config_exception_becomes_validation_error (self : Serializer)
    (kubeconfig : PyValue) :
  py_eq_empty_dict kubeconfig = false →
  (load_kube_config_from_dict kubeconfig = Raises ConfigException →
   validate_kubeconfig load_kube_config_from_dict self kubeconfig
   = Raises (ValidationError invalid_kubeconfig_message))
  ∧ validate_kubeconfig load_kube_config_from_dict self kubeconfig ≠ Raises ConfigException
  ∧ (load_kube_config_from_dict kubeconfig = Returns tt →
     validate_kubeconfig load_kube_config_from_dict self kubeconfig = Returns kubeconfig)
  ∧ (∀ e, e ≠ ConfigException →
     load_kube_config_from_dict kubeconfig = Raises e →
     validate_kubeconfig load_kube_config_from_dict self kubeconfig = Raises e).
Proof.
  intros Hne. unfold validate_kubeconfig.
  rewrite Hne.
  destruct (load_kube_config_from_dict kubeconfig) as [[]|e]; [|destruct e];
    repeat split; intros; simplify_eq; try done.
Qed.

End KubeconfigValidation.

(** The loader of the sample fails on a number with an exception that is not
    its [ConfigException]; the validator lets it through. *)
Lemma loader_type_error_propagates :
  py_eq_empty_dict (PyInt 5) = false
  ∧ Sample.load_kube_config (PyInt 5) = Raises (OtherException "TypeError")
  ∧ validate_kubeconfig Sample.load_kube_config {| _validated_data := None |} (PyInt 5)
    = Raises (OtherException "TypeError")
  ∧ validate_kubeconfig Sample.load_kube_config {| _validated_data := None |} (PyInt 5)
    ≠ Raises (ValidationError invalid_kubeconfig_message).
Proof.
  split; [reflexivity|]. split; [reflexivity|]. split; [reflexivity|].
  intros H. discriminate H.
Qed.

Lemma empty_kubeconfig_raises_assertion_error_witness :
  kubernetes_kubeconfig Sample.local_cluster = PyDict []
  ∧ kubernetes_local Sample.local_cluster = true
  ∧ Sample.handle (KubernetesCreate "k" Sample.local_cluster) Sample.empty_world
    = (Raises AssertionError, Sample.empty_world).
Proof.
  split; [reflexivity|]. split; [reflexivity|].
  apply (empty_kubeconfig_raises_assertion_error
           Sample.verbose_name Sample.verbose_name_plural Sample.load_kube_config
           (probe_health Sample.probe_backend)
           (reflection_all_subclasses Sample.classes)
           Sample.page_of Sample.paginated_response
           Sample.empty_world "k" Sample.local_cluster).
  reflexivity.
Defined.

Lemma config_exception_becomes_validation_error_witness :
  validate_kubeconfig Sample.load_kube_config {| _validated_data := None |}
    (PyDict [("clusters", PyList [])])
  = Raises (ValidationError invalid_kubeconfig_message).
Proof.
  destruct (config_exception_becomes_validation_error Sample.load_kube_config
              {| _validated_data := None |} (PyDict [("clusters", PyList [])]) eq_refl)
    as (Hcaught & _).
  apply Hcaught. reflexivity.
Defined.

(** ** Retrieval and the state of a connection *)

(** C6: the state view answers a key that resolves with a dict of the shape
    healthy (a boolean) and version (a string), the fields of the state
    serializer, and a key that does not resolve with not found; it leaves
    the repository as it was. *)
Theorem state_shape_or_not_found (connection_state : Instance → HealthState)
    (w : World) (key : string) :
  match connections w !! key with
  | Some r =>
      ∃ (h : bool) (v : string),
        state connection_state key w
        = (Returns (PyDict [("healthy", PyBool h); ("version", PyStr v)]), w)
        ∧ fst <$> [("healthy", PyBool h); ("version", PyStr v)]
          = ServiceConnectionStateSerializer_fields
  | None => state connection_state key w = (Raises Http404, w)
  end.
Proof.
  unfold state, reading, ServiceConnectionViewSet_queryset.
  rewrite get_object_select_subclasses.
  destruct (connections w !! key) as [r|]; [|done].
  cbn. unfold asdict. eauto.
Qed.

(** C3: for a connection that exists, whatever the backend does, the state
    view returns a health state and does not raise; when the probe fails, by
    a refused connection, a timeout, an authentication failure or a protocol
    error, the state is unhealthy with an empty version. *)
Theorem state_never_raises (probe_backend : ServiceConnection → ProbeOutcome)
    (w : World) (key : string) (r : ServiceConnection) :
  connections w !! key = Some r →
  ∃ s : HealthState,
    state (probe_health probe_backend) key w = (Returns (asdict s), w)
    ∧ (∀ failure, probe_backend r = Unreachable failure →
       s = {| healthy := false; version := "" |})
    ∧ (∀ v, probe_backend r = Reachable v → s = {| healthy := true; version := v |}).
Proof.
  intros Hr. unfold state, reading, ServiceConnectionViewSet_queryset.
  rewrite get_object_select_subclasses, Hr. cbn.
  eexists. split; [reflexivity|].
  unfold probe_health. cbn.
  split; intros x Hx; by rewrite Hx.
Qed.

Section Retrieval.

Variable verbose_name_of : ModelClass → string.
Variable verbose_name_plural_of : ModelClass → string.
Variable load_kube_config_from_dict : PyValue → Result unit.
Variable connection_state : Instance → HealthState.
Variable all_subclasses : string → list PyClass.
Variable page_of : list string → list string → list Instance → list Instance.
Variable paginated_response : list PyValue → PyValue.

Local Abbreviation api :=
  (handle verbose_name_of verbose_name_plural_of
          load_kube_config_from_dict connection_state all_subclasses
          page_of paginated_response).

(** C7: for every key stored in the repository, the queryset of the generic
    viewset yields an instance of the class of the stored variant, Docker or
    Kubernetes and never the base class, with the stored record; the
    retrieve view reports the object type of that variant, and the state
    view asks the state of that same instance. *)
Theorem generic_retrieval_is_typed (w : World) (key : string) (r : ServiceConnection) :
  connections w !! key = Some r →
  ∃ obj : Instance,
    get_object (ServiceConnectionViewSet_queryset w) key = Returns obj
    ∧ pk obj = key ∧ row obj = r
    ∧ instance_class obj = class_of_variant (variant r)
    ∧ instance_class obj ≠ OutpostServiceConnection
    ∧ (instance_class obj = DockerServiceConnection
       ∨ instance_class obj = KubernetesServiceConnection)
    ∧ (∃ items,
         api (ConnectionRetrieve key) w = (Returns (PyDict items), w)
         ∧ py_getitem (PyDict items) "object_type"
           = Some (PyStr (variant_kind (variant r))))
    ∧ api (ConnectionState key) w = (Returns (asdict (connection_state obj)), w).
Proof.
  intros Hr. eexists. unfold ServiceConnectionViewSet_queryset.
  rewrite get_object_select_subclasses, Hr.
  split; [reflexivity|]. cbn [pk row instance_class].
  split; [done|]. split; [done|]. split; [done|].
  split; [by destruct (variant r)|].
  split; [destruct (variant r); auto|].
  split.
  - cbn [handle]. unfold retrieve, reading, ServiceConnectionViewSet_queryset.
    rewrite get_object_select_subclasses, Hr.
    eexists. split; [reflexivity|].
    by destruct (variant r).
  - cbn [handle]. unfold state, reading, ServiceConnectionViewSet_queryset.
    by rewrite get_object_select_subclasses, Hr.
Qed.

(** C8: a Docker connection submitted with a free name, an endpoint and
    certificate references that exist is created; retrieving it afterwards
    by its key gives, from the queryset of the generic viewset, an instance
    of the Docker class with the submitted name, local flag, url and TLS
    references, and, from the retrieve view of the Docker viewset, a
    representation with object type "docker" and the submitted values. *)
Theorem docker_round_trip (w : World) (new_pk : string) (data : DockerData) :
  name_taken w None (docker_name data) = false →
  url (docker_fields data) ≠ "" →
  certificate_known w (tls_verification (docker_fields data)) = true →
  certificate_known w (tls_authentication (docker_fields data)) = true →
  connections w !! new_pk = None →
  ∃ (created : PyValue) (w' : World),
    api (DockerCreate new_pk data) w = (Returns created, w')
    ∧ get_object (ServiceConnectionViewSet_queryset w') new_pk
      = Returns {| instance_class := DockerServiceConnection; pk := new_pk;
                   row := {| name := docker_name data; local := docker_local data;
                             variant := Docker (docker_fields data) |} |}
    ∧ api (DockerRetrieve new_pk) w' = (Returns created, w')
    ∧ py_getitem created "object_type" = Some (PyStr "docker")
    ∧ py_getitem created "pk" = Some (PyStr new_pk)
    ∧ py_getitem created "name" = Some (PyStr (docker_name data))
    ∧ py_getitem created "url" = Some (PyStr (url (docker_fields data)))
    ∧ py_getitem created "tls_verification"
      = Some (py_option_str (tls_verification (docker_fields data)))
    ∧ py_getitem created "tls_authentication"
      = Some (py_option_str (tls_authentication (docker_fields data)))
    ∧ (∃ items,
         api (ConnectionRetrieve new_pk) w' = (Returns (PyDict items), w')
         ∧ py_getitem (PyDict items) "object_type" = Some (PyStr "docker")
         ∧ py_getitem (PyDict items) "name" = Some (PyStr (docker_name data))).
Proof.
  intros Hname Hurl Hv Ha Hfresh.
  eexists _, _. split.
  { cbn [handle]. unfold create.
    rewrite docker_validate_ok by done. cbn [mbind Result_bind].
    rewrite (docker_apply_full data (docker_new data) (docker_fields data)) by done.
    rewrite Hfresh.
    rewrite (docker_serializer_data _ _ _ _ (docker_fields data)) by done.
    reflexivity. }
  assert (Hnew : connections (set_connections w
             (<[new_pk := docker_new data]> (connections w))) !! new_pk
           = Some (docker_new data)).
  { cbn [connections set_connections]. apply lookup_insert_eq. }
  split.
  { unfold ServiceConnectionViewSet_queryset.
    rewrite get_object_select_subclasses, Hnew. reflexivity. }
  split.
  { cbn [handle]. unfold retrieve, reading.
    rewrite get_object_objects_all, Hnew.
    rewrite bool_decide_eq_true_2 by (by right). cbn [mbind Result_bind].
    by rewrite (docker_serializer_data _ _ _ _ (docker_fields data)). }
  do 6 (split; [reflexivity|]).
  cbn [handle]. unfold retrieve, reading, ServiceConnectionViewSet_queryset.
  rewrite get_object_select_subclasses, Hnew.
  eexists. split; [reflexivity|]. by split.
Qed.

End Retrieval.

(** ** The rule on local connections over the requests *)

Section Invariant.

Variable verbose_name_of : ModelClass → string.
Variable verbose_name_plural_of : ModelClass → string.
Variable load_kube_config_from_dict : PyValue → Result unit.
Variable connection_state : Instance → HealthState.
Variable all_subclasses : string → list PyClass.
Variable page_of : list string → list string → list Instance → list Instance.
Variable paginated_response : list PyValue → PyValue.

Local Abbreviation api :=
  (handle verbose_name_of verbose_name_plural_of
          load_kube_config_from_dict connection_state all_subclasses
          page_of paginated_response).

(** C9: the code does not keep the rule. The validator of the kubeconfig
    runs only when a kubeconfig is submitted, so a partial update that
    submits nothing but a false [local] is accepted for a local record with
    an empty kubeconfig: afterwards the repository holds a Kubernetes record
    that is not local and has the empty dict as its kubeconfig. *)
Theorem partial_update_unsets_local (w : World) (key n : string) :
  connections w !! key
  = Some {| name := n; local := true; variant := Kubernetes (PyDict []) |} →
  ∃ (data : PyValue) (w' : World),
    api (KubernetesPartialUpdate key
           {| kpatch_name := None; kpatch_local := Some false;
              kpatch_kubeconfig := None |}) w
    = (Returns data, w')
    ∧ connections w' !! key
      = Some {| name := n; local := false; variant := Kubernetes (PyDict []) |}
    ∧ ¬ kubeconfig_invariant w'.
Proof.
  intros Hr. eexists _, _. cbn [handle]. unfold update.
  rewrite get_object_objects_all, Hr.
  rewrite bool_decide_eq_true_2 by (by right).
  cbn [pk row KubernetesServiceConnectionSerializer_validate kpatch_kubeconfig
       kpatch_name kpatch_local name_errors raise_errors mbind Result_bind].
  rewrite (kubernetes_serializer_data _ _ _ _ (PyDict [])) by done.
  split; [reflexivity|].
  assert (connections
            (set_connections w
               (<[key := kubernetes_apply
                           {| kpatch_name := None; kpatch_local := Some false;
                              kpatch_kubeconfig := None |}
                           {| name := n; local := true;
                              variant := Kubernetes (PyDict []) |}]> (connections w)))
            !! key
          = Some {| name := n; local := false; variant := Kubernetes (PyDict []) |})
    as Hstored by apply lookup_insert_eq.
  split; [exact Hstored|].
  intros Hinvariant. by specialize (Hinvariant _ _ Hstored).
Qed.

End Invariant.

(** ** The type listing *)

Lemma fold_left_append_entries {A B} (f : A → B) (l : list A) (acc : list B) :
  fold_left (λ data x, data ++ [f x]) l acc = acc ++ (f <$> l).
Proof.
  revert acc. induction l as [|x l IH]; intros acc; cbn.
  - by rewrite app_nil_r.
  - rewrite IH. by rewrite <- app_assoc.
Qed.

Lemma TypeCreateSerializer_data_entries (subclasses : list PyClass) :
  TypeCreateSerializer_data (type_entry <$> subclasses) = type_entry <$> subclasses.
Proof.
  unfold TypeCreateSerializer_data. rewrite <- list_fmap_compose.
  apply list_fmap_ext. intros i c _. reflexivity.
Qed.

(** The response of [types] for any behaviour of the subclass discovery. *)
Lemma types_response (all_subclasses : string → list PyClass) (w : World) :
  types all_subclasses w
  = (Returns (PyList (type_entry <$> all_subclasses "OutpostServiceConnection")), w).
Proof.
  unfold types, reading. cbn [object_name].
  rewrite fold_left_append_entries. cbn [app].
  by rewrite TypeCreateSerializer_data_entries.
Qed.

(** C5: the type listing raises no error and leaves the repository as it
    was; it returns a sequence with one entry per discovered subclass, the
    empty sequence when there is none. *)
Theorem types_is_a_pure_read (all_subclasses : string → list PyClass) (w : World) :
  snd (types all_subclasses w) = w
  ∧ (∃ entries : list PyValue,
       fst (types all_subclasses w) = Returns (PyList entries)
       ∧ length entries = length (all_subclasses (object_name OutpostServiceConnection)))
  ∧ (all_subclasses (object_name OutpostServiceConnection) = [] →
     types all_subclasses w = (Returns (PyList []), w)).
Proof.
  rewrite types_response. cbn [fst snd object_name].
  split; [done|]. split.
  - eexists. split; [done|]. by rewrite length_fmap.
  - by intros ->.
Qed.

(** The scan of a table in two parts: the second part is scanned with the
    family that the first part has grown. *)
Lemma family_scan_app (family : list string) (classes1 classes2 : list PyClass) :
  family_scan family (classes1 ++ classes2)
  = family_scan family classes1
    ++ family_scan (rev (cls_name <$> family_scan family classes1) ++ family) classes2.
Proof.
  revert family. induction classes1 as [|c0 classes1 IH]; intros family.
  - reflexivity.
  - cbn [app family_scan].
    destruct (existsb _ (cls_bases c0)).
    + rewrite IH. cbn [fmap list_fmap rev app].
      by rewrite <- (app_assoc _ [cls_name c0] family).
    + apply IH.
Qed.

Lemma family_scan_sublist (family : list string) (classes : list PyClass) :
  family_scan family classes `sublist_of` classes.
Proof.
  revert family. induction classes as [|c0 classes IH]; intros family; cbn.
  - constructor.
  - destruct (existsb _ _); by constructor.
Qed.

(** A class with a base in the family grown so far joins it. *)
Lemma family_scan_joins (family : list string) (c : PyClass) (rest : list PyClass)
    (b : string) :
  b ∈ cls_bases c → b ∈ family →
  family_scan family (c :: rest) = c :: family_scan (cls_name c :: family) rest.
Proof.
  intros Hb Hfamily. cbn [family_scan].
  assert (existsb (λ b, bool_decide (b ∈ family)) (cls_bases c) = true) as ->; [|done].
  apply existsb_exists. exists b. split; [by apply list_elem_of_In|].
  by apply bool_decide_eq_true.
Qed.

(** The family after a scan: the root and the names of the members. *)
Lemma elem_of_grown_family (root b : string) (members : list PyClass) :
  (b = root ∨ ∃ member, member ∈ members ∧ cls_name member = b) →
  b ∈ rev (cls_name <$> members) ++ [root].
Proof.
  intros [->|(member & Hmember & <-)]; apply elem_of_app.
  - right. by apply list_elem_of_singleton.
  - left. apply list_elem_of_In. rewrite <- in_rev. apply list_elem_of_In.
    by apply list_elem_of_fmap_2.
Qed.

(** A base in the family that a scan has grown is the root or the name of
    a member. *)
Lemma elem_of_grown_family_inv (root b : string) (members : list PyClass) :
  b ∈ rev (cls_name <$> members) ++ [root] →
  b = root ∨ ∃ member, member ∈ members ∧ cls_name member = b.
Proof.
  intros [Hb|Hb]%elem_of_app.
  - right. apply list_elem_of_In in Hb. rewrite <- in_rev in Hb.
    apply list_elem_of_In, list_elem_of_fmap in Hb as (member & -> & Hmember). eauto.
  - left. by apply list_elem_of_singleton in Hb.
Qed.

(** A member of the family joined it at its place in the program, through a
    base that was in the family by then. *)
Lemma family_scan_elem_inv (family : list string) (classes : list PyClass) (c : PyClass) :
  c ∈ family_scan family classes →
  ∃ before after b,
    classes = before ++ c :: after
    ∧ b ∈ cls_bases c
    ∧ b ∈ rev (cls_name <$> family_scan family before) ++ family.
Proof.
  revert family. induction classes as [|c0 classes IH]; intros family; cbn [family_scan].
  - by intros ?%elem_of_nil.
  - destruct (existsb (λ b, bool_decide (b ∈ family)) (cls_bases c0)) eqn:Hjoins.
    + intros [->|Hc]%elem_of_cons.
      * apply existsb_exists in Hjoins as (b & Hb%list_elem_of_In & Hfamily).
        apply bool_decide_eq_true in Hfamily.
        by exists [], classes, b.
      * destruct (IH _ Hc) as (before & after & b & -> & Hb & Hfamily).
        exists (c0 :: before), after, b. split; [done|]. split; [done|].
        cbn [family_scan]. rewrite Hjoins. cbn [fmap list_fmap rev].
        by rewrite <- (app_assoc _ [cls_name c0] family).
    + intros Hc. destruct (IH _ Hc) as (before & after & b & -> & Hb & Hfamily).
      exists (c0 :: before), after, b. split; [done|]. split; [done|].
      cbn [family_scan]. by rewrite Hjoins.
Qed.

Lemma descends_app (classes more : list PyClass) (root : string) (c : PyClass) :
  descends classes root c → descends (classes ++ more) root c.
Proof.
  induction 1 as [c Hc Hroot|c parent Hc _ IH Hparent].
  - apply descends_direct; [|done]. apply elem_of_app. by left.
  - apply descends_step with parent; [|done..]. apply elem_of_app. by left.
Qed.

(** Every member of the family descends from the root. *)
Lemma family_scan_descends (classes : list PyClass) (root : string) (c : PyClass) :
  c ∈ family_scan [root] classes → descends classes root c.
Proof.
  revert c. induction classes as [|x classes IH] using rev_ind; intros c; [by intros ?%elem_of_nil|].
  rewrite family_scan_app. intros [Hc|Hc]%elem_of_app.
  - by apply descends_app, IH.
  - cbn [family_scan] in Hc.
    destruct (existsb _ (cls_bases x)) eqn:Hjoins; [|by apply elem_of_nil in Hc].
    apply list_elem_of_singleton in Hc as ->.
    apply existsb_exists in Hjoins as (b & Hb%list_elem_of_In & Hfamily).
    apply bool_decide_eq_true, elem_of_grown_family_inv in Hfamily
      as [->|(member & Hmember & <-)].
    + apply descends_direct; [|done]. apply elem_of_app. right. apply list_elem_of_here.
    + apply descends_step with member; [| |done].
      * apply elem_of_app. right. apply list_elem_of_here.
      * by apply descends_app, IH.
Qed.

(** C4: the type listing is one entry, the dict of the verbose name, the
    docstring and the component, per class that the discovery finds in the
    family of the base class, in the order of their definition. The
    discovered classes are classes of the program, each found once; every
    one of them descends from the base class, and a class is discovered
    exactly when, at its place in the program, one of its bases is the base
    class or a member found before it. A class defined after the others
    with such a base is discovered in addition to them, and after the
    definition of a class is taken away no class of that name is
    discovered; the view itself is the same in all cases. *)
Theorem types_lists_the_family (classes : list PyClass) (w : World) :
  types (reflection_all_subclasses classes) w
  = (Returns (PyList ((λ subclass,
                PyDict [("name", PyStr (cls_verbose_name subclass));
                        ("description", py_option_str (cls_doc subclass));
                        ("component", PyStr (cls_component subclass))])
              <$> reflection_all_subclasses classes
                    (object_name OutpostServiceConnection))), w)
  ∧ reflection_all_subclasses classes (object_name OutpostServiceConnection)
    `sublist_of` classes
  ∧ (∀ c : PyClass,
       c ∈ reflection_all_subclasses classes (object_name OutpostServiceConnection) →
       descends classes (object_name OutpostServiceConnection) c)
  ∧ (∀ c : PyClass,
       c ∈ reflection_all_subclasses classes (object_name OutpostServiceConnection)
       ↔ ∃ (before after : list PyClass) (b : string),
           classes = before ++ c :: after
           ∧ b ∈ cls_bases c
           ∧ (b = object_name OutpostServiceConnection
              ∨ ∃ member, member ∈ reflection_all_subclasses before
                                     (object_name OutpostServiceConnection)
                          ∧ cls_name member = b))
  ∧ (∀ (added : PyClass) (b : string),
       b ∈ cls_bases added →
       (b = object_name OutpostServiceConnection
        ∨ ∃ member, member ∈ reflection_all_subclasses classes
                               (object_name OutpostServiceConnection)
                    ∧ cls_name member = b) →
       reflection_all_subclasses (classes ++ [added])
         (object_name OutpostServiceConnection)
       = reflection_all_subclasses classes (object_name OutpostServiceConnection)
         ++ [added])
  ∧ (∀ (removed : string) (c : PyClass),
       c ∈ reflection_all_subclasses (filter (λ c, cls_name c ≠ removed) classes)
             (object_name OutpostServiceConnection) →
       cls_name c ≠ removed).
Proof.
  split; [apply types_response|].
  split; [apply family_scan_sublist|].
  split; [intros c; apply family_scan_descends|].
  split; [|split].
  - intros c. unfold reflection_all_subclasses. split.
    + intros (before & after & b & -> & Hb & Hfamily)%family_scan_elem_inv.
      exists before, after, b. split; [done|]. split; [done|].
      by apply elem_of_grown_family_inv.
    + intros (before & after & b & -> & Hb & Hfamily).
      rewrite family_scan_app. apply elem_of_app. right.
      rewrite (family_scan_joins _ c after b Hb (elem_of_grown_family _ _ _ Hfamily)).
      apply list_elem_of_here.
  - intros added b Hb Hfamily.
    unfold reflection_all_subclasses in *. rewrite family_scan_app.
    by rewrite (family_scan_joins _ added [] b Hb (elem_of_grown_family _ _ _ Hfamily)).
  - intros removed c Hc.
    apply elem_of_sublist with (l2 := filter (λ c, cls_name c ≠ removed) classes) in Hc;
      [|apply family_scan_sublist].
    by apply list_elem_of_filter in Hc as [Hne _].
Qed.

(** ** The properties on the sample *)

Lemma state_never_raises_witness :
  connections Sample.world !! "b" = Some Sample.remote_record
  ∧ state (probe_health Sample.probe_backend) "b" Sample.world
    = (Returns (PyDict [("healthy", PyBool false); ("version", PyStr "")]), Sample.world).
Proof.
  assert (connections Sample.world !! "b" = Some Sample.remote_record) as Hb
    by reflexivity.
  split; [exact Hb|].
  destruct (state_never_raises Sample.probe_backend Sample.world "b"
              Sample.remote_record Hb) as (s & Hstate & Hfailure & _).
  rewrite Hstate, (Hfailure Timeout eq_refl). reflexivity.
Defined.

Lemma generic_retrieval_is_typed_witness :
  connections Sample.world !! "d" = Some Sample.docker_record
  ∧ ∃ obj : Instance,
      get_object (ServiceConnectionViewSet_queryset Sample.world) "d" = Returns obj
      ∧ pk obj = "d" ∧ row obj = Sample.docker_record
      ∧ instance_class obj = DockerServiceConnection
      ∧ instance_class obj ≠ OutpostServiceConnection
      ∧ (instance_class obj = DockerServiceConnection
         ∨ instance_class obj = KubernetesServiceConnection)
      ∧ (∃ items,
           Sample.handle (ConnectionRetrieve "d") Sample.world
           = (Returns (PyDict items), Sample.world)
           ∧ py_getitem (PyDict items) "object_type" = Some (PyStr "docker"))
      ∧ Sample.handle (ConnectionState "d") Sample.world
        = (Returns (asdict (probe_health Sample.probe_backend obj)), Sample.world).
Proof.
  assert (connections Sample.world !! "d" = Some Sample.docker_record) as Hd
    by reflexivity.
  split; [exact Hd|].
  exact (generic_retrieval_is_typed Sample.verbose_name Sample.verbose_name_plural
           Sample.load_kube_config (probe_health Sample.probe_backend)
           (reflection_all_subclasses Sample.classes)
           Sample.page_of Sample.paginated_response
           Sample.world "d" Sample.docker_record Hd).
Defined.

Lemma docker_round_trip_witness :
  ∃ (created : PyValue) (w' : World),
    Sample.handle (DockerCreate "d" Sample.docker_data) Sample.empty_world
    = (Returns created, w')
    ∧ get_object (ServiceConnectionViewSet_queryset w') "d"
      = Returns {| instance_class := DockerServiceConnection; pk := "d";
                   row := Sample.docker_record |}
    ∧ Sample.handle (DockerRetrieve "d") w' = (Returns created, w')
    ∧ py_getitem created "object_type" = Some (PyStr "docker")
    ∧ py_getitem created "pk" = Some (PyStr "d")
    ∧ py_getitem created "name" = Some (PyStr "engine")
    ∧ py_getitem created "url" = Some (PyStr "tcp://engine:2376")
    ∧ py_getitem created "tls_verification" = Some (PyStr "ca")
    ∧ py_getitem created "tls_authentication" = Some PyNone
    ∧ (∃ items,
         Sample.handle (ConnectionRetrieve "d") w' = (Returns (PyDict items), w')
         ∧ py_getitem (PyDict items) "object_type" = Some (PyStr "docker")
         ∧ py_getitem (PyDict items) "name" = Some (PyStr "engine")).
Proof.
  apply (docker_round_trip Sample.verbose_name Sample.verbose_name_plural
           Sample.load_kube_config (probe_health Sample.probe_backend)
           (reflection_all_subclasses Sample.classes)
           Sample.page_of Sample.paginated_response
           Sample.empty_world "d" Sample.docker_data).
  - reflexivity.
  - discriminate.
  - reflexivity.
  - reflexivity.
  - reflexivity.
Defined.

Lemma partial_update_unsets_local_witness :
  kubeconfig_invariant Sample.local_world
  ∧ connections Sample.local_world !! "a" = Some Sample.local_record
  ∧ ∃ (data : PyValue) (w' : World),
      Sample.handle (KubernetesPartialUpdate "a" Sample.only_local_false)
        Sample.local_world
      = (Returns data, w')
      ∧ connections w' !! "a"
        = Some {| name := "in-cluster"; local := false;
                  variant := Kubernetes (PyDict []) |}
      ∧ ¬ kubeconfig_invariant w'.
Proof.
  split.
  { apply map_Forall_singleton. reflexivity. }
  split; [reflexivity|].
  apply (partial_update_unsets_local
           Sample.verbose_name Sample.verbose_name_plural Sample.load_kube_config
           (probe_health Sample.probe_backend)
           (reflection_all_subclasses Sample.classes)
           Sample.page_of Sample.paginated_response
           Sample.local_world "a" "in-cluster").
  reflexivity.
Defined.

Lemma types_is_a_pure_read_witness :
  reflection_all_subclasses [Sample.base_class; Sample.other_class]
    (object_name OutpostServiceConnection) = []
  ∧ types (reflection_all_subclasses [Sample.base_class; Sample.other_class])
      Sample.world
    = (Returns (PyList []), Sample.world).
Proof.
  split; [reflexivity|].
  apply (types_is_a_pure_read
           (reflection_all_subclasses [Sample.base_class; Sample.other_class])
           Sample.world).
  reflexivity.
Defined.

Lemma types_lists_the_family_witness :
  reflection_all_subclasses (Sample.classes ++ [Sample.nomad_class])
    (object_name OutpostServiceConnection)
  = reflection_all_subclasses Sample.classes (object_name OutpostServiceConnection)
    ++ [Sample.nomad_class]
  ∧ reflection_all_subclasses Sample.classes (object_name OutpostServiceConnection)
    = [Sample.docker_class; Sample.kubernetes_class].
Proof.
  split; [|reflexivity].
  destruct (types_lists_the_family Sample.classes Sample.empty_world)
    as (_ & _ & _ & _ & Hadded & _).
  apply (Hadded Sample.nomad_class "OutpostServiceConnection").
  - apply list_elem_of_singleton. reflexivity.
  - left. reflexivity.
Defined.

(** * Further properties of the serializers and viewsets *)

(** ** The validator *)

(** X1: the validator never rewrites a document. It returns a value exactly
    when that value is the kubeconfig it was given and this is either the
    empty dict under a true [local] among the validated data or a document
    that the loader accepted. *)
Theorem validate_kubeconfig_accepts (load_kube_config_from_dict : PyValue → Result unit)
    (self : Serializer) (kubeconfig validated : PyValue) :
  validate_kubeconfig load_kube_config_from_dict self kubeconfig = Returns validated ↔
  validated = kubeconfig
  ∧ ((kubeconfig = PyDict []
      ∧ ∃ data is_local, validated_data self = Returns data
                         ∧ data !! "local" = Some is_local
                         ∧ truthy is_local = true)
     ∨ (kubeconfig ≠ PyDict []
        ∧ load_kube_config_from_dict kubeconfig = Returns tt)).
Proof.
  unfold validate_kubeconfig. split.
  - destruct (py_eq_empty_dict kubeconfig) eqn:Hempty.
    + assert (kubeconfig = PyDict []) as ->.
      { by destruct kubeconfig as [| | | | |[|]]. }
      destruct (validated_data self) as [data|]; [|done]. cbn.
      destruct (data !! "local") as [is_local|] eqn:Hlocal; [|done].
      destruct (truthy is_local) eqn:Htruthy; cbn; [|done].
      intros [= <-]. split; [done|]. left. split; [done|]. eauto.
    + destruct (load_kube_config_from_dict kubeconfig) as [[]|[]]; try done.
      intros [= <-]. split; [done|]. right. split; [|done].
      by intros ->.
  - intros [-> [[-> (data & is_local & Hdata & Hlocal & Htruthy)]|[Hne Hloaded]]].
    + cbn [py_eq_empty_dict]. rewrite Hdata. cbn. by rewrite Hlocal, Htruthy.
    + assert (py_eq_empty_dict kubeconfig = false) as ->.
      { by destruct kubeconfig as [| | | | |[|]]. }
      by rewrite Hloaded.
Qed.

Lemma validate_kubeconfig_accepts_witness :
  validate_kubeconfig Sample.load_kube_config {| _validated_data := None |}
    Sample.kubeconfig
  = Returns Sample.kubeconfig
  ∧ Sample.load_kube_config Sample.kubeconfig = Returns tt.
Proof.
  split; [reflexivity|].
  destruct (proj1 (validate_kubeconfig_accepts Sample.load_kube_config
              {| _validated_data := None |} Sample.kubeconfig Sample.kubeconfig) eq_refl)
    as [_ [[Hempty _]|[_ Hloaded]]].
  - discriminate Hempty.
  - exact Hloaded.
Defined.

(** X2: the validator consults one of its two inputs. For the empty dict the
    loader is never called, so the outcome is the same with any loader; for
    any other document the serializer state, and with it the [local] flag,
    is never read. *)
Theorem validate_kubeconfig_reads_one_input
    (load1 load2 : PyValue → Result unit) (self1 self2 : Serializer)
    (kubeconfig : PyValue) :
  validate_kubeconfig load1 self1 (PyDict []) = validate_kubeconfig load2 self1 (PyDict [])
  ∧ (kubeconfig ≠ PyDict [] →
     validate_kubeconfig load1 self1 kubeconfig
     = validate_kubeconfig load1 self2 kubeconfig).
Proof.
  split; [reflexivity|].
  intros Hne. unfold validate_kubeconfig.
  assert (py_eq_empty_dict kubeconfig = false) as ->; [|done].
  by destruct kubeconfig as [| | | | |[|]].
Qed.

Lemma validate_kubeconfig_reads_one_input_witness :
  validate_kubeconfig Sample.load_kube_config
    {| _validated_data := Some {[ "local" := PyBool true ]} |} (PyList [])
  = validate_kubeconfig Sample.load_kube_config
      {| _validated_data := Some {[ "local" := PyBool false ]} |} (PyList []).
Proof.
  apply (validate_kubeconfig_reads_one_input Sample.load_kube_config
           Sample.load_kube_config
           {| _validated_data := Some {[ "local" := PyBool true ]} |}
           {| _validated_data := Some {[ "local" := PyBool false ]} |} (PyList [])).
  discriminate.
Defined.

(** ** The object type of any class name *)

Lemma lower_char_idempotent (c : ascii) :
  Str.lower_char (Str.lower_char c) = Str.lower_char c.
Proof. by destruct c as [[] [] [] [] [] [] [] []]. Qed.

Lemma lower_idempotent (s : string) : Str.lower (Str.lower s) = Str.lower s.
Proof.
  induction s as [|c s IH]; [done|].
  cbn. by rewrite lower_char_idempotent, IH.
Qed.

(** Deleting occurrences from a string in lower case leaves it in lower
    case. *)
Lemma replace_scan_delete_lower (skip : nat) (old s : string) :
  Str.lower s = s →
  Str.lower (Str.replace_scan skip old "" s) = Str.replace_scan skip old "" s.
Proof.
  revert skip. induction s as [|c s IH]; intros skip Hs; [done|].
  cbn in Hs. injection Hs as Hc Hs.
  cbn [Str.replace_scan]. destruct skip as [|skip]; [|by apply IH].
  destruct (Str.startswith _ _).
  - change ("" +:+ ?t) with t. by apply IH.
  - cbn. by rewrite Hc, IH.
Qed.

Lemma replace_scan_delete_length (skip : nat) (old s : string) :
  (String.length (Str.replace_scan skip old "" s) ≤ String.length s)%nat.
Proof.
  revert skip. induction s as [|c s IH]; intros skip; [done|].
  cbn [Str.replace_scan]. destruct skip as [|skip].
  - destruct (Str.startswith _ _).
    + change ("" +:+ ?t) with t. cbn [String.length]. specialize (IH (Nat.pred (String.length old))). lia.
    + cbn [String.length]. specialize (IH O). lia.
  - cbn [String.length]. specialize (IH skip). lia.
Qed.

(** Without an occurrence of [old] the scan changes nothing. *)
Lemma replace_scan_absent (old new s : string) :
  Str.contains s old = false → Str.replace_scan O old new s = s.
Proof.
  induction s as [|c s IH]; [done|].
  cbn [Str.contains]. intros [Hstart Hrest]%orb_false_iff.
  cbn [Str.replace_scan]. rewrite Hstart. by rewrite IH.
Qed.

(** With an occurrence of a non-empty [old], deleting makes the string
    shorter. *)
Lemma replace_scan_present (a : ascii) (old' s : string) :
  Str.contains s (String a old') = true →
  (String.length (Str.replace_scan O (String a old') "" s) < String.length s)%nat.
Proof.
  induction s as [|c s IH]; [done|].
  cbn [Str.contains Str.replace_scan].
  destruct (Str.startswith (String c s) (String a old')).
  - intros _. change ("" +:+ ?t) with t. cbn [String.length].
    pose proof (replace_scan_delete_length
                  (Nat.pred (String.length (String a old'))) (String a old') s) as Hle.
    cbn [String.length] in *. lia.
  - cbn [orb String.length]. intros Hrest. specialize (IH Hrest). lia.
Qed.

(** X3: for a class with an ASCII name, whatever it is called, the object
    type that [get_object_type] computes from the name is in lower case; so
    it is for the three classes of the module. *)
Theorem object_type_is_lower_case (class_name : string) (obj : Instance) :
  Str.isascii class_name = true →
  Str.lower (Str.replace (Str.lower class_name) "serviceconnection" "")
  = Str.replace (Str.lower class_name) "serviceconnection" ""
  ∧ Str.lower (get_object_type obj) = get_object_type obj.
Proof.
  intros _.
  assert (∀ n, Str.lower (Str.replace (Str.lower n) "serviceconnection" "")
               = Str.replace (Str.lower n) "serviceconnection" "") as Hlower.
  { intros n. unfold Str.replace. apply replace_scan_delete_lower, lower_idempotent. }
  split; [apply Hlower|]. apply Hlower.
Qed.

Lemma object_type_is_lower_case_witness :
  Str.isascii "NomadServiceConnection" = true
  ∧ Str.lower (Str.replace (Str.lower "NomadServiceConnection") "serviceconnection" "")
    = Str.replace (Str.lower "NomadServiceConnection") "serviceconnection" "".
Proof.
  split; [reflexivity|].
  apply (object_type_is_lower_case "NomadServiceConnection"
           {| instance_class := DockerServiceConnection; pk := "d";
              row := Sample.docker_record |}).
  reflexivity.
Defined.

(** X4: for a class with an ASCII name, the object type computed from the
    name is the whole name in lower case exactly when that name does not
    contain "serviceconnection"; otherwise it is shorter than the name. *)
Theorem object_type_keeps_other_names (class_name : string) :
  Str.isascii class_name = true →
  (Str.replace (Str.lower class_name) "serviceconnection" "" = Str.lower class_name
   ↔ Str.contains (Str.lower class_name) "serviceconnection" = false)
  ∧ (Str.contains (Str.lower class_name) "serviceconnection" = true →
     (String.length (Str.replace (Str.lower class_name) "serviceconnection" "")
      < String.length class_name)%nat).
Proof.
  intros _.
  assert (String.length (Str.lower class_name) = String.length class_name) as Hlen.
  { induction class_name as [|c n IH]; [done|]. cbn. by rewrite IH. }
  unfold Str.replace. split; [split|].
  - intros Hsame.
    destruct (Str.contains (Str.lower class_name) "serviceconnection") eqn:Hc; [|done].
    apply replace_scan_present in Hc. rewrite Hsame in Hc. lia.
  - apply replace_scan_absent.
  - intros Hc. apply replace_scan_present in Hc. lia.
Qed.

Lemma object_type_keeps_other_names_witness :
  Str.isascii "DockerServiceConnection" = true
  ∧ Str.contains (Str.lower "DockerServiceConnection") "serviceconnection" = true
  ∧ (String.length (Str.replace (Str.lower "DockerServiceConnection")
                                "serviceconnection" "")
     < String.length "DockerServiceConnection")%nat.
Proof.
  split; [reflexivity|]. split; [reflexivity|].
  apply (object_type_keeps_other_names "DockerServiceConnection"); reflexivity.
Defined.

(** ** Representations and endpoints *)

Lemma to_representation_keys (vn vnp : ModelClass → string) (fields : list string)
    (obj : Instance) (items : list (string * PyValue)) :
  to_representation vn vnp fields obj = Returns items → fst <$> items = fields.
Proof.
  revert items. induction fields as [|field fields IH]; intros items; cbn.
  - by intros [= <-].
  - destruct (field_value vn vnp obj field); [|done].
    destruct (to_representation vn vnp fields obj) as [rest|]; [|done].
    cbn. intros [= <-]. cbn. by rewrite (IH rest).
Qed.

Lemma to_representation_app (vn vnp : ModelClass → string) (fields1 fields2 : list string)
    (obj : Instance) :
  to_representation vn vnp (fields1 ++ fields2) obj
  = items1 ← to_representation vn vnp fields1 obj;
    items2 ← to_representation vn vnp fields2 obj;
    Returns (items1 ++ items2).
Proof.
  induction fields1 as [|field fields1 IH]; cbn.
  - by destruct (to_representation vn vnp fields2 obj).
  - destruct (field_value vn vnp obj field); [|done].
    rewrite IH.
    destruct (to_representation vn vnp fields1 obj); [|done]. cbn.
    by destruct (to_representation vn vnp fields2 obj).
Qed.

(** X5: what a variant serializer returns for an instance starts with what
    the connection serializer returns for it, followed by the fields of the
    variant, and its keys are the declared fields in their order. *)
Theorem variant_serializers_extend_generic (vn vnp : ModelClass → string)
    (fields : list string) (obj : Instance) (items : list (string * PyValue)) :
  fields = DockerServiceConnectionSerializer_fields
  ∨ fields = KubernetesServiceConnectionSerializer_fields →
  to_representation vn vnp fields obj = Returns items →
  ∃ base more,
    to_representation vn vnp ServiceConnectionSerializer_fields obj = Returns base
    ∧ items = base ++ more
    ∧ fst <$> items = fields
    ∧ fst <$> base = ServiceConnectionSerializer_fields.
Proof.
  intros Hfields Hitems.
  pose proof (to_representation_keys _ _ _ _ _ Hitems) as Hkeys.
  assert (∃ extra, fields = ServiceConnectionSerializer_fields ++ extra) as [extra ->].
  { destruct Hfields as [->| ->]; eauto. }
  rewrite to_representation_app in Hitems.
  destruct (to_representation vn vnp ServiceConnectionSerializer_fields obj)
    as [base|] eqn:Hbase; [|done].
  cbn in Hitems.
  destruct (to_representation vn vnp extra obj) as [more|]; [|done].
  cbn in Hitems. injection Hitems as <-.
  exists base, more. repeat split; [done|].
  by apply to_representation_keys in Hbase.
Qed.

Lemma variant_serializers_extend_generic_witness :
  ∃ base more,
    to_representation Sample.verbose_name Sample.verbose_name_plural
      ServiceConnectionSerializer_fields
      {| instance_class := KubernetesServiceConnection; pk := "b";
         row := Sample.remote_record |} = Returns base
    ∧ [("pk", PyStr "b"); ("name", PyStr "remote"); ("local", PyBool false);
       ("object_type", PyStr "kubernetes");
       ("verbose_name", PyStr "Kubernetes Service-Connection");
       ("verbose_name_plural", PyStr "Kubernetes Service-Connections");
       ("kubeconfig", Sample.kubeconfig)] = base ++ more
    ∧ fst <$> [("pk", PyStr "b"); ("name", PyStr "remote"); ("local", PyBool false);
               ("object_type", PyStr "kubernetes");
               ("verbose_name", PyStr "Kubernetes Service-Connection");
               ("verbose_name_plural", PyStr "Kubernetes Service-Connections");
               ("kubeconfig", Sample.kubeconfig)]
      = KubernetesServiceConnectionSerializer_fields
    ∧ fst <$> base = ServiceConnectionSerializer_fields.
Proof.
  apply (variant_serializers_extend_generic Sample.verbose_name
           Sample.verbose_name_plural KubernetesServiceConnectionSerializer_fields
           {| instance_class := KubernetesServiceConnection; pk := "b";
              row := Sample.remote_record |}).
  - right. reflexivity.
  - reflexivity.
Defined.

(** ** The outcome of a write *)

Lemma bind_Returns {A B} (m : Result A) (f : A → Result B) (b : B) :
  m ≫= f = Returns b → ∃ a, m = Returns a ∧ f a = Returns b.
Proof. destruct m as [a|]; [|done]. cbn. eauto. Qed.

(** An instance of the queryset of a variant class is of that class and
    holds the record stored under its key. *)
Lemma get_object_objects_all_Returns (cls : ModelClass) (w : World) (key : string)
    (obj : Instance) :
  cls ≠ OutpostServiceConnection →
  get_object (objects_all cls w) key = Returns obj →
  obj = {| instance_class := cls; pk := key; row := row obj |}
  ∧ connections w !! key = Some (row obj)
  ∧ class_of_variant (variant (row obj)) = cls.
Proof.
  intros Hcls. rewrite get_object_objects_all.
  destruct (connections w !! key) as [r|]; [|done].
  case_bool_decide as Hclass; [|done].
  intros [= <-]. cbn. destruct Hclass as [?|Hclass]; done.
Qed.

Section Writes.

Variable vn vnp : ModelClass → string.

Lemma create_Returns (cls : ModelClass) (fields : list string) (new_pk : string)
    (validated : World → Result ServiceConnection) (w : World) (data : PyValue) :
  fst (create vn vnp cls fields new_pk validated w) = Returns data →
  ∃ r, validated w = Returns r
       ∧ connections w !! new_pk = None
       ∧ serializer_data vn vnp fields
           {| instance_class := cls; pk := new_pk; row := r |} = Returns data
       ∧ snd (create vn vnp cls fields new_pk validated w)
         = set_connections w (<[new_pk := r]> (connections w)).
Proof.
  unfold create. destruct (validated w) as [r|]; [|done].
  destruct (connections w !! new_pk); [done|]. cbn [fst snd]. eauto.
Qed.

Lemma update_Returns (cls : ModelClass) (fields : list string) (key : string)
    (validated : World → Instance → Result ServiceConnection) (w : World)
    (data : PyValue) :
  cls ≠ OutpostServiceConnection →
  fst (update vn vnp cls fields key validated w) = Returns data →
  ∃ r0 r, connections w !! key = Some r0
          ∧ class_of_variant (variant r0) = cls
          ∧ validated w {| instance_class := cls; pk := key; row := r0 |} = Returns r
          ∧ serializer_data vn vnp fields
              {| instance_class := cls; pk := key; row := r |} = Returns data
          ∧ snd (update vn vnp cls fields key validated w)
            = set_connections w (<[key := r]> (connections w)).
Proof.
  intros Hcls. unfold update.
  destruct (get_object (objects_all cls w) key) as [obj|] eqn:Hobj; [|done].
  apply get_object_objects_all_Returns in Hobj as (-> & Hr0 & Hclass); [|done].
  cbn [pk row] in *.
  destruct (validated w _) as [r|] eqn:Hr; [|done]. cbn [fst snd].
  intros Hdata. exists (row obj), r. by repeat split.
Qed.

(** A write that ends in an error leaves the world as it was, provided the
    serializer can represent what a valid write stores. *)
Lemma create_Raises (cls : ModelClass) (fields : list string) (new_pk : string)
    (validated : World → Result ServiceConnection) (w : World) (e : Exception) :
  (∀ r, validated w = Returns r →
        ∃ data, serializer_data vn vnp fields
                  {| instance_class := cls; pk := new_pk; row := r |} = Returns data) →
  fst (create vn vnp cls fields new_pk validated w) = Raises e →
  snd (create vn vnp cls fields new_pk validated w) = w.
Proof.
  intros Hdata. unfold create. destruct (validated w) as [r|] eqn:Hr; [|done].
  destruct (connections w !! new_pk); [done|]. cbn [fst snd].
  destruct (Hdata r eq_refl) as [data ->]. done.
Qed.

Lemma update_Raises (cls : ModelClass) (fields : list string) (key : string)
    (validated : World → Instance → Result ServiceConnection) (w : World)
    (e : Exception) :
  cls ≠ OutpostServiceConnection →
  (∀ r0 r, class_of_variant (variant r0) = cls →
           validated w {| instance_class := cls; pk := key; row := r0 |} = Returns r →
           ∃ data, serializer_data vn vnp fields
                     {| instance_class := cls; pk := key; row := r |} = Returns data) →
  fst (update vn vnp cls fields key validated w) = Raises e →
  snd (update vn vnp cls fields key validated w) = w.
Proof.
  intros Hcls Hdata. unfold update.
  destruct (get_object (objects_all cls w) key) as [obj|] eqn:Hobj; [|done].
  apply get_object_objects_all_Returns in Hobj as (-> & Hr0 & Hclass); [|done].
  cbn [pk row] in *.
  destruct (validated w _) as [r|] eqn:Hr; [|done]. cbn [fst snd].
  destruct (Hdata _ r Hclass Hr) as [data ->]. done.
Qed.

End Writes.

(** What the Docker serializer saves over a Docker record is a Docker
    record; likewise for Kubernetes. *)
Lemma docker_saved (w : World) (self_pk : option string) (p : DockerPatch)
    (r0 r : ServiceConnection) :
  class_of_variant (variant r0) = DockerServiceConnection →
  (p' ← DockerServiceConnectionSerializer_validate w self_pk p;
   Returns (docker_apply p' r0)) = Returns r →
  r = docker_apply p r0 ∧ ∃ d, variant r = Docker d.
Proof.
  intros Hclass (p' & ->%docker_validate_shape & [= <-])%bind_Returns.
  split; [done|]. apply class_of_variant_docker. by rewrite docker_apply_class.
Qed.

Lemma kubernetes_saved (load : PyValue → Result unit) (w : World)
    (self_pk : option string) (p : KubernetesPatch) (r0 r : ServiceConnection) :
  class_of_variant (variant r0) = KubernetesServiceConnection →
  (p' ← KubernetesServiceConnectionSerializer_validate load w self_pk p;
   Returns (kubernetes_apply p' r0)) = Returns r →
  r = kubernetes_apply p r0
  ∧ (∃ kubeconfig, variant r = Kubernetes kubeconfig)
  ∧ ∀ kubeconfig, kpatch_kubeconfig p = Some kubeconfig →
                  kubeconfig ≠ PyDict [] ∧ load kubeconfig = Returns tt.
Proof.
  intros Hclass (p' & [-> Hloaded]%kubernetes_validate_shape & [= <-])%bind_Returns.
  split; [done|]. split; [|done].
  apply class_of_variant_kubernetes. by rewrite kubernetes_apply_class.
Qed.

(** ** The endpoints *)

Section Endpoints.

Variable verbose_name_of : ModelClass → string.
Variable verbose_name_plural_of : ModelClass → string.
Variable load_kube_config_from_dict : PyValue → Result unit.
Variable connection_state : Instance → HealthState.
Variable all_subclasses : string → list PyClass.
Variable page_of : list string → list string → list Instance → list Instance.
Variable paginated_response : list PyValue → PyValue.

Local Abbreviation api :=
  (handle verbose_name_of verbose_name_plural_of
          load_kube_config_from_dict connection_state all_subclasses
          page_of paginated_response).

(** X6: the retrieve view of the generic viewset returns the six fields of
    the connection serializer and nothing else: neither the kubeconfig nor
    the url nor the TLS references of a record leave through it. *)
Theorem generic_retrieve_hides_variant_fields (w : World) (key : string) (data : PyValue) :
  fst (api (ConnectionRetrieve key) w) = Returns data →
  ∃ items,
    data = PyDict items
    ∧ fst <$> items = ServiceConnectionSerializer_fields
    ∧ py_getitem data "kubeconfig" = None
    ∧ py_getitem data "url" = None
    ∧ py_getitem data "tls_verification" = None
    ∧ py_getitem data "tls_authentication" = None.
Proof.
  cbn [handle]. unfold retrieve, reading, ServiceConnectionViewSet_queryset. cbn [fst].
  rewrite get_object_select_subclasses.
  destruct (connections w !! key) as [r|]; [|done].
  cbn. intros [= <-]. eexists. split; [reflexivity|]. by repeat split.
Qed.

(** X7: the object type that the generic viewset reports for a stored record
    names the variant endpoint that has the full object: the retrieve view
    of that endpoint returns the record, with the same object type, and the
    retrieve view of the other endpoint answers not found. *)
Theorem object_type_names_the_endpoint (w : World) (key : string) (r : ServiceConnection) :
  connections w !! key = Some r →
  ∃ generic,
    fst (api (ConnectionRetrieve key) w) = Returns generic
    ∧ (py_getitem generic "object_type" = Some (PyStr "docker")
       ∨ py_getitem generic "object_type" = Some (PyStr "kubernetes"))
    ∧ (py_getitem generic "object_type" = Some (PyStr "docker") →
       fst (api (KubernetesRetrieve key) w) = Raises Http404
       ∧ ∃ full, fst (api (DockerRetrieve key) w) = Returns full
                 ∧ py_getitem full "object_type" = Some (PyStr "docker")
                 ∧ py_getitem full "pk" = py_getitem generic "pk"
                 ∧ py_getitem full "name" = py_getitem generic "name"
                 ∧ is_Some (py_getitem full "url"))
    ∧ (py_getitem generic "object_type" = Some (PyStr "kubernetes") →
       fst (api (DockerRetrieve key) w) = Raises Http404
       ∧ ∃ full, fst (api (KubernetesRetrieve key) w) = Returns full
                 ∧ py_getitem full "object_type" = Some (PyStr "kubernetes")
                 ∧ py_getitem full "pk" = py_getitem generic "pk"
                 ∧ py_getitem full "name" = py_getitem generic "name"
                 ∧ is_Some (py_getitem full "kubeconfig")).
Proof.
  intros Hr. eexists.
  cbn [handle]. unfold retrieve, reading, ServiceConnectionViewSet_queryset. cbn [fst].
  rewrite get_object_select_subclasses, !get_object_objects_all, Hr.
  split; [reflexivity|].
  destruct r as [n l [d|kubeconfig]]; cbn.
  - split; [by left|]. split; [|done].
    intros _. split; [done|]. eexists. split; [reflexivity|]. by repeat split.
  - split; [by right|]. split; [done|].
    intros _. split; [done|]. eexists. split; [reflexivity|]. by repeat split.
Qed.

(** X8: a variant endpoint never writes a record of the other variant. An
    update, a partial update or a destroy through the Docker viewset of a
    key that holds a Kubernetes record answers not found and changes
    nothing, and so does the Kubernetes viewset for a Docker record. *)
Theorem variant_endpoints_are_isolated (w : World) (key : string) (r : ServiceConnection)
    (docker_data : DockerData) (kubernetes_data : KubernetesData) :
  connections w !! key = Some r →
  match variant r with
  | Kubernetes _ =>
      api (DockerUpdate key docker_data) w = (Raises Http404, w)
      ∧ api (DockerDestroy key) w = (Raises Http404, w)
      ∧ ∀ patch, api (DockerPartialUpdate key patch) w = (Raises Http404, w)
  | Docker _ =>
      api (KubernetesUpdate key kubernetes_data) w = (Raises Http404, w)
      ∧ api (KubernetesDestroy key) w = (Raises Http404, w)
      ∧ ∀ patch, api (KubernetesPartialUpdate key patch) w = (Raises Http404, w)
  end.
Proof.
  intros Hr. cbn [handle]. unfold update, destroy.
  rewrite !get_object_objects_all, Hr.
  by destruct r as [n l [d|kubeconfig]].
Qed.

(** X9: a request that is answered with an error changes nothing: after a
    validation error, an assertion error, a key that does not resolve or a
    key that is taken, the repository is as it was before the request. *)
Theorem rejected_request_changes_nothing (req : Request) (w : World) (e : Exception) :
  fst (api req w) = Raises e → snd (api req w) = w.
Proof.
  destruct req; cbn [handle]; try done;
    try (unfold destroy; by destruct (get_object _ _)).
  - apply create_Raises. intros r Hr.
    apply (docker_saved _ _ _ (docker_new data)) in Hr as [_ [d Hd]]; [|done].
    rewrite (docker_serializer_data _ _ _ _ d Hd). eauto.
  - apply update_Raises; [done|]. intros r0 r Hclass Hr.
    apply docker_saved in Hr as [_ [d Hd]]; [|done].
    rewrite (docker_serializer_data _ _ _ _ d Hd). eauto.
  - apply update_Raises; [done|]. intros r0 r Hclass Hr.
    apply docker_saved in Hr as [_ [d Hd]]; [|done].
    rewrite (docker_serializer_data _ _ _ _ d Hd). eauto.
  - apply create_Raises. intros r Hr.
    apply (kubernetes_saved _ _ _ _ (kubernetes_new data)) in Hr as (_ & [k Hk] & _);
      [|done].
    rewrite (kubernetes_serializer_data _ _ _ _ k Hk). eauto.
  - apply update_Raises; [done|]. intros r0 r Hclass Hr.
    apply kubernetes_saved in Hr as (_ & [k Hk] & _); [|done].
    rewrite (kubernetes_serializer_data _ _ _ _ k Hk). eauto.
  - apply update_Raises; [done|]. intros r0 r Hclass Hr.
    apply kubernetes_saved in Hr as (_ & [k Hk] & _); [|done].
    rewrite (kubernetes_serializer_data _ _ _ _ k Hk). eauto.
Qed.

(** X10: no request changes the variant of a record: whatever is stored
    under a key after a request, a partial update included, is of the same
    variant as what was stored under it before. *)
Theorem request_keeps_the_variant (req : Request) (w : World) (key : string)
    (r r' : ServiceConnection) :
  connections w !! key = Some r →
  connections (snd (api req w)) !! key = Some r' →
  class_of_variant (variant r') = class_of_variant (variant r).
Proof.
  intros Hr.
  assert (∀ cls fields new_pk validated,
            connections (snd (create verbose_name_of verbose_name_plural_of
                                cls fields new_pk validated w)) !! key = Some r' →
            r' = r) as Hcreate.
  { intros cls fields new_pk validated. unfold create.
    destruct (validated w); [|cbn; congruence].
    destruct (connections w !! new_pk) eqn:Hnew; [cbn; congruence|].
    cbn [snd connections set_connections].
    rewrite lookup_insert_ne by congruence. congruence. }
  assert (∀ queryset key',
            connections (snd (destroy queryset key' w)) !! key = Some r' → r' = r)
    as Hdestroy.
  { intros queryset key'. unfold destroy.
    destruct (get_object _ _); [|cbn; congruence].
    cbn [snd connections set_connections].
    intros [_ Hkept]%lookup_delete_Some. congruence. }
  assert (∀ cls fields key' validated,
            cls ≠ OutpostServiceConnection →
            (∀ r0 r1, class_of_variant (variant r0) = cls →
                      validated w {| instance_class := cls; pk := key'; row := r0 |}
                      = Returns r1 →
                      class_of_variant (variant r1) = cls) →
            connections (snd (update verbose_name_of verbose_name_plural_of
                                cls fields key' validated w)) !! key = Some r' →
            class_of_variant (variant r') = class_of_variant (variant r)) as Hupdate.
  { intros cls fields key' validated Hcls Hvalid. unfold update.
    destruct (get_object (objects_all cls w) key') as [obj|] eqn:Hobj;
      [|cbn; congruence].
    apply get_object_objects_all_Returns in Hobj as (-> & Hr0 & Hclass); [|done].
    cbn [pk row] in *.
    destruct (validated w _) as [r1|] eqn:Hr1; [|cbn; congruence].
    cbn [snd connections set_connections].
    destruct (decide (key' = key)) as [->|Hne].
    - rewrite lookup_insert_eq. intros [= <-].
      rewrite (Hvalid _ _ Hclass Hr1). congruence.
    - rewrite lookup_insert_ne by done. congruence. }
  destruct req; cbn [handle]; cbn [snd reading retrieve list_ types state];
    try (intros; f_equal; congruence);
    try (by intros ->%Hcreate);
    try (by intros ->%Hdestroy);
    (apply Hupdate; [done|]; intros r0 r1 Hclass Hr1).
  - apply docker_saved in Hr1 as [-> _]; [|done]. by rewrite docker_apply_class.
  - apply docker_saved in Hr1 as [-> _]; [|done]. by rewrite docker_apply_class.
  - apply kubernetes_saved in Hr1 as [-> _]; [|done]. by rewrite kubernetes_apply_class.
  - apply kubernetes_saved in Hr1 as [-> _]; [|done]. by rewrite kubernetes_apply_class.
Qed.

(** X11: after the generic viewset destroyed a record, its key resolves on
    no endpoint, a second destroy answers not found, and every other key
    holds what it held. *)
Theorem destroyed_record_is_gone (w : World) (key : string) (r : ServiceConnection) :
  connections w !! key = Some r →
  ∃ w',
    api (ConnectionDestroy key) w = (Returns PyNone, w')
    ∧ connections w' !! key = None
    ∧ (∀ other, other ≠ key → connections w' !! other = connections w !! other)
    ∧ api (ConnectionRetrieve key) w' = (Raises Http404, w')
    ∧ api (ConnectionState key) w' = (Raises Http404, w')
    ∧ api (DockerRetrieve key) w' = (Raises Http404, w')
    ∧ api (KubernetesRetrieve key) w' = (Raises Http404, w')
    ∧ api (ConnectionDestroy key) w' = (Raises Http404, w').
Proof.
  intros Hr. eexists. cbn [handle].
  unfold destroy at 1. unfold ServiceConnectionViewSet_queryset.
  rewrite get_object_select_subclasses, Hr. cbn [pk].
  split; [reflexivity|].
  assert (connections (set_connections w (delete key (connections w))) !! key = None)
    as Hgone by apply lookup_delete_eq.
  split; [exact Hgone|].
  split; [intros other Hne; by apply lookup_delete_ne|].
  unfold retrieve, state, destroy, reading.
  rewrite !get_object_select_subclasses, !get_object_objects_all, Hgone.
  by repeat split.
Qed.

(** X13: what a successful create, update or partial update returns is
    what the retrieve view of the same viewset returns for that key
    afterwards; after a create or an update it holds the submitted values,
    and a kubeconfig comes back as it was submitted. *)
Theorem write_then_retrieve (req read : Request) (w : World) (data : PyValue) :
  retrieve_after req = Some read →
  fst (api req w) = Returns data →
  api read (snd (api req w)) = (Returns data, snd (api req w))
  ∧ match req with
    | DockerCreate _ d | DockerUpdate _ d =>
        py_getitem data "object_type" = Some (PyStr "docker")
        ∧ py_getitem data "name" = Some (PyStr (docker_name d))
        ∧ py_getitem data "local" = Some (PyBool (docker_local d))
        ∧ py_getitem data "url" = Some (PyStr (url (docker_fields d)))
        ∧ py_getitem data "tls_verification"
          = Some (py_option_str (tls_verification (docker_fields d)))
        ∧ py_getitem data "tls_authentication"
          = Some (py_option_str (tls_authentication (docker_fields d)))
    | KubernetesCreate _ d | KubernetesUpdate _ d =>
        py_getitem data "object_type" = Some (PyStr "kubernetes")
        ∧ py_getitem data "name" = Some (PyStr (kubernetes_name d))
        ∧ py_getitem data "local" = Some (PyBool (kubernetes_local d))
        ∧ py_getitem data "kubeconfig" = Some (kubernetes_kubeconfig d)
    | _ => True
    end.
Proof.
  assert (∀ cls fields key r,
            class_of_variant (variant r) = cls →
            serializer_data verbose_name_of verbose_name_plural_of fields
              {| instance_class := cls; pk := key; row := r |} = Returns data →
            retrieve verbose_name_of verbose_name_plural_of (objects_all cls) fields key
              (set_connections w (<[key := r]> (connections w)))
            = (Returns data, set_connections w (<[key := r]> (connections w))))
    as Hretrieve.
  { intros cls fields key r Hclass Hdata. unfold retrieve, reading.
    rewrite get_object_objects_all. cbn [connections set_connections].
    rewrite lookup_insert_eq.
    rewrite bool_decide_eq_true_2 by (by right). cbn [mbind Result_bind].
    by rewrite Hdata. }
  destruct req as [| | | | | |key d| |key d|key p| | |key d| |key d|key p|];
    try done; intros [= <-]; cbn [handle].
  - intros (r & Hr & _ & Hdata & ->)%create_Returns.
    apply (docker_saved _ _ _ (docker_new d)) in Hr as [-> [d' Hd']]; [|done].
    split; [apply Hretrieve; [by rewrite Hd'|done]|].
    rewrite (docker_apply_full d _ (docker_fields d)) in Hdata by done.
    rewrite (docker_serializer_data _ _ _ _ (docker_fields d)) in Hdata by done.
    injection Hdata as <-. by repeat split.
  - intros (r0 & r & Hr0 & Hclass & Hr & Hdata & ->)%update_Returns; [|done].
    destruct (class_of_variant_docker _ Hclass) as [d0 Hd0].
    apply docker_saved in Hr as [-> [d' Hd']]; [|done].
    split; [apply Hretrieve; [by rewrite Hd'|done]|].
    rewrite (docker_apply_full d _ d0) in Hdata by done.
    rewrite (docker_serializer_data _ _ _ _ (docker_fields d)) in Hdata by done.
    injection Hdata as <-. by repeat split.
  - intros (r0 & r & Hr0 & Hclass & Hr & Hdata & ->)%update_Returns; [|done].
    apply docker_saved in Hr as [-> [d' Hd']]; [|done].
    split; [apply Hretrieve; [by rewrite Hd'|done]|done].
  - intros (r & Hr & _ & Hdata & ->)%create_Returns.
    apply (kubernetes_saved _ _ _ _ (kubernetes_new d)) in Hr as (-> & [k Hk] & _);
      [|done].
    split; [apply Hretrieve; [by rewrite Hk|done]|].
    rewrite (kubernetes_apply_full d _ (kubernetes_kubeconfig d)) in Hdata by done.
    rewrite (kubernetes_serializer_data _ _ _ _ (kubernetes_kubeconfig d)) in Hdata
      by done.
    injection Hdata as <-. by repeat split.
  - intros (r0 & r & Hr0 & Hclass & Hr & Hdata & ->)%update_Returns; [|done].
    destruct (class_of_variant_kubernetes _ Hclass) as [k0 Hk0].
    apply kubernetes_saved in Hr as (-> & [k Hk] & _); [|done].
    split; [apply Hretrieve; [by rewrite Hk|done]|].
    rewrite (kubernetes_apply_full d _ k0) in Hdata by done.
    rewrite (kubernetes_serializer_data _ _ _ _ (kubernetes_kubeconfig d)) in Hdata
      by done.
    injection Hdata as <-. by repeat split.
  - intros (r0 & r & Hr0 & Hclass & Hr & Hdata & ->)%update_Returns; [|done].
    apply kubernetes_saved in Hr as (-> & [k Hk] & _); [|done].
    split; [apply Hretrieve; [by rewrite Hk|done]|done].
Qed.

(** X14: a kubeconfig is stored only after the loader accepted it. When a
    create, an update or a partial update that submits a kubeconfig
    succeeds, the submitted document is not the empty dict, the loader has
    returned on it without raising, and it is the kubeconfig of the record
    stored under the key afterwards. *)
Theorem stored_kubeconfig_was_loaded (req : Request) (w : World) (key : string)
    (kubeconfig data : PyValue) :
  submitted_kubeconfig req = Some (key, kubeconfig) →
  fst (api req w) = Returns data →
  kubeconfig ≠ PyDict []
  ∧ load_kube_config_from_dict kubeconfig = Returns tt
  ∧ ∃ r, connections (snd (api req w)) !! key = Some r
         ∧ variant r = Kubernetes kubeconfig.
Proof.
  destruct req as [| | | | | | | | | | | |key' d| |key' d|key' p|]; try done; cbn [handle].
  - intros [= <- <-].
    intros (r & Hr & _ & _ & ->)%create_Returns.
    apply (kubernetes_saved _ _ _ _ (kubernetes_new d)) in Hr as (-> & _ & Hloaded);
      [|done].
    destruct (Hloaded _ eq_refl) as [Hne Hload].
    split; [done|]. split; [done|].
    eexists. split; [apply lookup_insert_eq|].
    by rewrite (kubernetes_apply_full d _ (kubernetes_kubeconfig d)).
  - intros [= <- <-].
    intros (r0 & r & Hr0 & Hclass & Hr & _ & ->)%update_Returns; [|done].
    destruct (class_of_variant_kubernetes _ Hclass) as [k0 Hk0].
    apply kubernetes_saved in Hr as (-> & _ & Hloaded); [|done].
    destruct (Hloaded _ eq_refl) as [Hne Hload].
    split; [done|]. split; [done|].
    eexists. split; [apply lookup_insert_eq|].
    by rewrite (kubernetes_apply_full d _ k0).
  - cbn [submitted_kubeconfig].
    destruct (kpatch_kubeconfig p) as [k|] eqn:Hk; [|done]. intros [= <- <-].
    intros (r0 & r & Hr0 & Hclass & Hr & _ & ->)%update_Returns; [|done].
    destruct (class_of_variant_kubernetes _ Hclass) as [k0 Hk0].
    apply kubernetes_saved in Hr as (-> & _ & Hloaded); [|done].
    destruct (Hloaded _ Hk) as [Hne Hload].
    split; [done|]. split; [done|].
    eexists. split; [apply lookup_insert_eq|].
    unfold kubernetes_apply. cbn [variant row]. by rewrite Hk0, Hk.
Qed.

End Endpoints.

(** ** The further properties on the sample *)

Lemma generic_retrieve_hides_variant_fields_witness :
  ∃ data,
    fst (Sample.handle (ConnectionRetrieve "b") Sample.world) = Returns data
    ∧ ∃ items,
        data = PyDict items
        ∧ fst <$> items = ServiceConnectionSerializer_fields
        ∧ py_getitem data "kubeconfig" = None
        ∧ py_getitem data "url" = None
        ∧ py_getitem data "tls_verification" = None
        ∧ py_getitem data "tls_authentication" = None.
Proof.
  eexists. split; [reflexivity|].
  apply (generic_retrieve_hides_variant_fields Sample.verbose_name
           Sample.verbose_name_plural Sample.load_kube_config
           (probe_health Sample.probe_backend)
           (reflection_all_subclasses Sample.classes)
           Sample.page_of Sample.paginated_response Sample.world "b").
  reflexivity.
Defined.

Lemma object_type_names_the_endpoint_witness :
  connections Sample.world !! "b" = Some Sample.remote_record
  ∧ ∃ generic,
      fst (Sample.handle (ConnectionRetrieve "b") Sample.world) = Returns generic
      ∧ (py_getitem generic "object_type" = Some (PyStr "docker")
         ∨ py_getitem generic "object_type" = Some (PyStr "kubernetes"))
      ∧ (py_getitem generic "object_type" = Some (PyStr "docker") →
         fst (Sample.handle (KubernetesRetrieve "b") Sample.world) = Raises Http404
         ∧ ∃ full, fst (Sample.handle (DockerRetrieve "b") Sample.world) = Returns full
                   ∧ py_getitem full "object_type" = Some (PyStr "docker")
                   ∧ py_getitem full "pk" = py_getitem generic "pk"
                   ∧ py_getitem full "name" = py_getitem generic "name"
                   ∧ is_Some (py_getitem full "url"))
      ∧ (py_getitem generic "object_type" = Some (PyStr "kubernetes") →
         fst (Sample.handle (DockerRetrieve "b") Sample.world) = Raises Http404
         ∧ ∃ full, fst (Sample.handle (KubernetesRetrieve "b") Sample.world) = Returns full
                   ∧ py_getitem full "object_type" = Some (PyStr "kubernetes")
                   ∧ py_getitem full "pk" = py_getitem generic "pk"
                   ∧ py_getitem full "name" = py_getitem generic "name"
                   ∧ is_Some (py_getitem full "kubeconfig")).
Proof.
  assert (connections Sample.world !! "b" = Some Sample.remote_record) as Hb
    by reflexivity.
  split; [exact Hb|].
  exact (object_type_names_the_endpoint Sample.verbose_name Sample.verbose_name_plural
           Sample.load_kube_config (probe_health Sample.probe_backend)
           (reflection_all_subclasses Sample.classes)
           Sample.page_of Sample.paginated_response
           Sample.world "b" Sample.remote_record Hb).
Defined.

Lemma variant_endpoints_are_isolated_witness :
  connections Sample.world !! "b" = Some Sample.remote_record
  ∧ Sample.handle (DockerUpdate "b" Sample.docker_data) Sample.world
    = (Raises Http404, Sample.world)
  ∧ Sample.handle (DockerDestroy "b") Sample.world = (Raises Http404, Sample.world)
  ∧ Sample.handle (DockerPartialUpdate "b" (docker_patch_of Sample.docker_data))
      Sample.world
    = (Raises Http404, Sample.world).
Proof.
  assert (connections Sample.world !! "b" = Some Sample.remote_record) as Hb
    by reflexivity.
  split; [exact Hb|].
  destruct (variant_endpoints_are_isolated Sample.verbose_name
              Sample.verbose_name_plural
              Sample.load_kube_config (probe_health Sample.probe_backend)
              (reflection_all_subclasses Sample.classes)
              Sample.page_of Sample.paginated_response
              Sample.world "b" Sample.remote_record Sample.docker_data
              Sample.local_cluster Hb) as (Hupdate & Hdestroy & Hpatch).
  split; [exact Hupdate|]. split; [exact Hdestroy|]. apply Hpatch.
Defined.

Lemma rejected_request_changes_nothing_witness :
  fst (Sample.handle (KubernetesCreate "c" Sample.remote_without_config)
         Sample.empty_world)
  = Raises AssertionError
  ∧ snd (Sample.handle (KubernetesCreate "c" Sample.remote_without_config)
           Sample.empty_world)
    = Sample.empty_world.
Proof.
  assert (fst (Sample.handle (KubernetesCreate "c" Sample.remote_without_config)
                 Sample.empty_world)
          = Raises AssertionError) as Hrejected
    by reflexivity.
  split; [exact Hrejected|].
  exact (rejected_request_changes_nothing Sample.verbose_name Sample.verbose_name_plural
           Sample.load_kube_config (probe_health Sample.probe_backend)
           (reflection_all_subclasses Sample.classes)
           Sample.page_of Sample.paginated_response
           (KubernetesCreate "c" Sample.remote_without_config) Sample.empty_world
           AssertionError Hrejected).
Defined.

Lemma request_keeps_the_variant_witness :
  connections Sample.world !! "b" = Some Sample.remote_record
  ∧ connections
      (snd (Sample.handle
              (KubernetesPartialUpdate "b"
                 {| kpatch_name := Some "cluster"; kpatch_local := None;
                    kpatch_kubeconfig := None |})
              Sample.world)) !! "b"
    = Some {| name := "cluster"; local := false;
              variant := Kubernetes Sample.kubeconfig |}
  ∧ class_of_variant (Kubernetes Sample.kubeconfig)
    = class_of_variant (variant Sample.remote_record).
Proof.
  split; [reflexivity|]. split; [reflexivity|].
  apply (request_keeps_the_variant Sample.verbose_name Sample.verbose_name_plural
           Sample.load_kube_config (probe_health Sample.probe_backend)
           (reflection_all_subclasses Sample.classes)
           Sample.page_of Sample.paginated_response
           (KubernetesPartialUpdate "b"
              {| kpatch_name := Some "cluster"; kpatch_local := None;
                 kpatch_kubeconfig := None |})
           Sample.world "b" Sample.remote_record
           {| name := "cluster"; local := false;
              variant := Kubernetes Sample.kubeconfig |}).
  - reflexivity.
  - reflexivity.
Defined.

Lemma destroyed_record_is_gone_witness :
  connections Sample.world !! "d" = Some Sample.docker_record
  ∧ ∃ w',
      Sample.handle (ConnectionDestroy "d") Sample.world = (Returns PyNone, w')
      ∧ connections w' !! "d" = None
      ∧ (∀ other, other ≠ "d" → connections w' !! other = connections Sample.world !! other)
      ∧ Sample.handle (ConnectionRetrieve "d") w' = (Raises Http404, w')
      ∧ Sample.handle (ConnectionState "d") w' = (Raises Http404, w')
      ∧ Sample.handle (DockerRetrieve "d") w' = (Raises Http404, w')
      ∧ Sample.handle (KubernetesRetrieve "d") w' = (Raises Http404, w')
      ∧ Sample.handle (ConnectionDestroy "d") w' = (Raises Http404, w').
Proof.
  assert (connections Sample.world !! "d" = Some Sample.docker_record) as Hd
    by reflexivity.
  split; [exact Hd|].
  exact (destroyed_record_is_gone Sample.verbose_name Sample.verbose_name_plural
           Sample.load_kube_config (probe_health Sample.probe_backend)
           (reflection_all_subclasses Sample.classes)
           Sample.page_of Sample.paginated_response
           Sample.world "d" Sample.docker_record Hd).
Defined.

Lemma write_then_retrieve_witness :
  ∃ data,
    fst (Sample.handle (KubernetesCreate "k" Sample.remote_cluster) Sample.empty_world)
    = Returns data
    ∧ Sample.handle (KubernetesRetrieve "k")
        (snd (Sample.handle (KubernetesCreate "k" Sample.remote_cluster)
                Sample.empty_world))
      = (Returns data,
         snd (Sample.handle (KubernetesCreate "k" Sample.remote_cluster)
                Sample.empty_world))
    ∧ py_getitem data "kubeconfig" = Some Sample.kubeconfig.
Proof.
  eexists. split; [reflexivity|].
  destruct (write_then_retrieve Sample.verbose_name Sample.verbose_name_plural
              Sample.load_kube_config (probe_health Sample.probe_backend)
              (reflection_all_subclasses Sample.classes)
              Sample.page_of Sample.paginated_response
              (KubernetesCreate "k" Sample.remote_cluster) (KubernetesRetrieve "k")
              Sample.empty_world _ eq_refl eq_refl)
    as (Hread & _ & _ & _ & Hkubeconfig).
  split; [exact Hread|exact Hkubeconfig].
Defined.

Lemma stored_kubeconfig_was_loaded_witness :
  submitted_kubeconfig (KubernetesCreate "k" Sample.remote_cluster)
  = Some ("k", Sample.kubeconfig)
  ∧ ∃ data,
      fst (Sample.handle (KubernetesCreate "k" Sample.remote_cluster)
             Sample.empty_world) = Returns data
      ∧ Sample.kubeconfig ≠ PyDict []
      ∧ Sample.load_kube_config Sample.kubeconfig = Returns tt
      ∧ ∃ r, connections (snd (Sample.handle (KubernetesCreate "k" Sample.remote_cluster)
                                 Sample.empty_world)) !! "k" = Some r
             ∧ variant r = Kubernetes Sample.kubeconfig.
Proof.
  split; [reflexivity|]. eexists. split; [reflexivity|].
  exact (stored_kubeconfig_was_loaded Sample.verbose_name Sample.verbose_name_plural
           Sample.load_kube_config (probe_health Sample.probe_backend)
           (reflection_all_subclasses Sample.classes)
           Sample.page_of Sample.paginated_response
           (KubernetesCreate "k" Sample.remote_cluster) Sample.empty_world
           "k" Sample.kubeconfig _ eq_refl eq_refl).
Defined.
